(** * Overmind action factories: [withLoadApp], [withOwnedSandbox], [createModals]

    A shallow embedding of
    [packages/app/src/app/overmind/factories.ts] and the properties of the
    three factories it exports.

    The file has two parts.  The first one holds the embedding: JavaScript
    values, the outcome of a call, the modal factory over a store of
    promises, and the two gates over a small statement monad with a call
    trace.  The second one holds the theorems. *)

From stdpp Require Import gmap strings list fin_maps.
From Stdlib Require Import ZArith Lia.

Local Open Scope string_scope.

(** ** JavaScript values *)

(** The values that payloads, results and thrown errors range over.
    Numbers are the integers and [NaN]; objects are opaque references;
    [VError] is an [Error] instance named by its constructor. *)
Inductive JSValue : Type :=
  | VUndefined
  | VNull
  | VBool (b : bool)
  | VNum (z : Z)
  | VNaN
  | VStr (s : string)
  | VObject (ref : nat)
  | VError (name : string).

#[global] Instance JSValue_eq_dec : EqDecision JSValue.
Proof. solve_decision. Defined.

(** [ToBoolean]: what [if (v)] and [v || w] test. *)
Definition truthy (v : JSValue) : bool :=
  match v with
  | VUndefined | VNull | VNaN => false
  | VBool b => b
  | VNum z => negb (Z.eqb z 0)
  | VStr s => negb (String.eqb s "")
  | VObject _ | VError _ => true
  end.

(** [a || b] *)
Definition js_or (a b : JSValue) : JSValue := if truthy a then a else b.

(** [v === 'lit'] *)
Definition strict_eq_str (v : JSValue) (lit : string) : bool :=
  match v with
  | VStr s => String.eqb s lit
  | _ => false
  end.

(** The error of calling [undefined] or reading a property of [null]. *)
Definition TypeError : JSValue := VError "TypeError".

(** How a call ends for its caller.  For an awaited call [Returned] is
    the fulfilment value, [Thrown] a rejection (or a synchronous throw) and
    [Hangs] a promise that never settles. *)
Inductive Outcome (A : Type) : Type :=
  | Returned (a : A)
  | Thrown (e : JSValue)
  | Hangs.
Arguments Returned {A} a.
Arguments Thrown {A} e.
Arguments Hangs {A}.

(** ** The modal factory *)

Module Modals.

(** [IState]: the fields of a state that a modal is declared with, or
    that [open] is given. *)
Abbreviation Fields := (gmap string JSValue).

(** A member of the state object that [createModal] makes for a modal: a
    field holding a value, or the method
    [isCurrent(_, root) { return root.modals.current === name }] of lines
    209-211, which holds the [name] it was made for. *)
Inductive Member : Type :=
  | Value (v : JSValue)
  | Derive (name : string).

Abbreviation StateObject := (gmap string Member).

(** One entry of the map handed to [createModals]:
    [{ state?: IState; result?: unknown }].  A missing [result] reads as
    [undefined]. *)
Record ModalDef : Type := {
  def_state : option Fields;
  def_result : JSValue;
}.

(** A promise made by [new Promise(resolve => ...)].  Nothing in this
    file rejects one. *)
Inductive PromiseState : Type :=
  | Pending
  | Resolved (v : JSValue).

(** What the modal actions read and write: [state.modals] (the selector
    [current], [None] for [null], and the state object of each modal),
    the variable [resolver] captured by each [createModal] call (absent
    while it is [undefined], otherwise the promise whose [resolve] it
    holds), and the promises allocated so far.

    In the source [state.modals] is one object: the selector is its key
    [current] and each modal's state object sits under the modal's name.
    The two are kept in fields of their own here, which is that object
    as long as no modal is itself named [current]; what is proved about
    the state objects below is stated for such registries. *)
Record Store : Type := {
  current : option string;
  modalState : gmap string StateObject;
  resolver : gmap string nat;
  promises : list PromiseState;
}.

(** An action [async ({ state }, payload) => ...] of this factory. *)
Definition Action (P R : Type) : Type := P -> Store -> Store * Outcome R.

(** [Object.assign(target, source)]: every field of [source] is written
    to [target], over whatever member of that name [target] had.  (A
    field named [__proto__] would be written through the setter that
    objects inherit and become no member; the merge is stated below for
    sources that have none.) *)
Definition Object_assign (target : StateObject) (source : Fields) : StateObject :=
  (Value <$> source) ∪ target.

(** Calling the [resolve] function of promise [p]: settles it when it is
    pending, does nothing otherwise. *)
Definition resolve (p : nat) (v : JSValue) (ps : list PromiseState)
  : list PromiseState :=
  match ps !! p with
  | Some Pending => <[p := Resolved v]> ps
  | _ => ps
  end.

(** [open] of [createModal(name, modal)].  [newState] is [None] when the
    argument is omitted, which the default parameter turns into [{}].
    The returned number is the promise the caller is left waiting on. *)
Definition open (name : string) : Action (option Fields) nat :=
  fun newState s =>
    let newState := default ∅ newState in
    let s1 := {| current := Some name;
                 modalState := modalState s;
                 resolver := resolver s;
                 promises := promises s |} in
    match modalState s1 !! name with
    | None => (s1, Thrown TypeError)
    | Some target =>
        let p := length (promises s1) in
        ({| current := current s1;
            modalState := <[name := Object_assign target newState]> (modalState s1);
            resolver := <[name := p]> (resolver s1);
            promises := promises s1 ++ [Pending] |},
         Returned p)
    end.

(** [close] of [createModal(name, modal)] *)
Definition close (name : string) (modal : ModalDef) : Action JSValue JSValue :=
  fun payload s =>
    let s1 := {| current := None;
                 modalState := modalState s;
                 resolver := resolver s;
                 promises := promises s |} in
    match resolver s1 !! name with
    | None => (s1, Thrown TypeError)
    | Some p =>
        ({| current := current s1;
            modalState := modalState s1;
            resolver := resolver s1;
            promises := resolve p (js_or payload (def_result modal)) (promises s1) |},
         Returned VUndefined)
    end.

(** The derived [isCurrent(_, root)] of a modal's state: what the member
    [Derive name] computes. *)
Definition isCurrent (name : string) (root : Store) : bool :=
  bool_decide (current root = Some name).

Record ModalActions : Type := {
  act_open : Action (option Fields) nat;
  act_close : Action JSValue JSValue;
}.

(** The result of [createModal]: the initial state object and the two
    actions. *)
Record Modal : Type := {
  modal_state : StateObject;
  modal_actions : ModalActions;
}.

(** The state is [{ ...modal.state, isCurrent(_, root) {...} }]: the
    declared fields (none when [modal.state] is [undefined]), and then
    the method under the key [isCurrent], in place of a declared field of
    that name. *)
Definition createModal (name : string) (modal : ModalDef) : Modal :=
  {| modal_state := <[ "isCurrent" := Derive name ]> (Value <$> default ∅ (def_state modal));
     modal_actions := {| act_open := open name; act_close := close name modal |} |}.

(** The aggregate that [createModals] returns; [agg_current] is the key
    [current] of its [state], the other keys are in [agg_state] (see
    [Store]). *)
Record Aggregate : Type := {
  agg_current : option string;
  agg_state : gmap string StateObject;
  agg_actions : gmap string ModalActions;
}.

(** One step of the [reduce] of line 220, for the key [name] and
    [def = modals[name]]. *)
Definition reducer (aggr : Aggregate) (entry : string * ModalDef) : Aggregate :=
  let '(name, def) := entry in
  let modal := createModal name def in
  {| agg_current := agg_current aggr;
     agg_state := <[name := modal_state modal]> (agg_state aggr);
     agg_actions := <[name := modal_actions modal]> (agg_actions aggr) |}.

(** [Object.keys(modals).reduce(...)]: [modals] is an object used as a
    map from names to definitions. *)
Definition createModals (modals : gmap string ModalDef) : Aggregate :=
  fold_left reducer (map_to_list modals)
    {| agg_current := None; agg_state := ∅; agg_actions := ∅ |}.

(** The store when the application starts: the aggregate state mounted
    at [state.modals], every [resolver] still [undefined], no promise
    made. *)
Definition mount (m : Aggregate) : Store :=
  {| current := agg_current m;
     modalState := agg_state m;
     resolver := ∅;
     promises := [] |}.

(** A dispatch of [actions.modals[name].open] or [.close]. *)
Inductive Dispatch : Type :=
  | DoOpen (name : string) (newState : option Fields)
  | DoClose (name : string) (payload : JSValue).

(** One dispatch against the aggregate's actions.  A name the aggregate
    does not have fails before any action runs. *)
Definition dispatch (m : Aggregate) (d : Dispatch) (s : Store) : Store :=
  match d with
  | DoOpen name newState =>
      match agg_actions m !! name with
      | Some a => fst (act_open a newState s)
      | None => s
      end
  | DoClose name payload =>
      match agg_actions m !! name with
      | Some a => fst (act_close a payload s)
      | None => s
      end
  end.

Definition run (m : Aggregate) (ds : list Dispatch) (s : Store) : Store :=
  fold_left (fun s d => dispatch m d s) ds s.

Definition closes (name : string) (d : Dispatch) : bool :=
  match d with
  | DoClose n _ => bool_decide (n = name)
  | DoOpen _ _ => false
  end.

Definition opens (name : string) (d : Dispatch) : bool :=
  match d with
  | DoOpen n _ => bool_decide (n = name)
  | DoClose _ _ => false
  end.

(** The stores the dispatches keep to: each modal of the aggregate has
    its state object mounted, and each [resolver] that was assigned holds
    a promise that exists. *)
Definition well_formed (m : Aggregate) (s : Store) : Prop :=
  (∀ name, is_Some (agg_actions m !! name) → is_Some (modalState s !! name)) ∧
  (∀ name p, resolver s !! name = Some p → p < length (promises s)).

(** Promise [p] is pending and no other modal than [name] can settle
    it. *)
Definition awaited_by (name : string) (p : nat) (s : Store) : Prop :=
  promises s !! p = Some Pending ∧
  (∀ other, resolver s !! other = Some p → other = name).

(** *** A registry to run the factory on *)

Definition confirm_def : ModalDef :=
  {| def_state := Some {[ "title" := VStr "" ]}; def_result := VBool true |}.

Definition forkFrozen_def : ModalDef :=
  {| def_state := None; def_result := VStr "fork" |}.

Definition example_modals : gmap string ModalDef :=
  {[ "confirmModal" := confirm_def; "forkFrozenModal" := forkFrozen_def ]}.

Definition confirm_actions : ModalActions :=
  modal_actions (createModal "confirmModal" confirm_def).

Definition forkFrozen_actions : ModalActions :=
  modal_actions (createModal "forkFrozenModal" forkFrozen_def).

End Modals.

(** ** The state the gates work on *)

(** [state.user] *)
Record CurrentUser : Type := {
  user_id : string;
  user_email : string;
}.

(** [state.editor.currentSandbox]: the fields the ownership gate reads.
    [authorization] is a [PermissionType], a string at run time. *)
Record Sandbox : Type := {
  sandbox_id : string;
  sandbox_owned : bool;
  sandbox_authorization : string;
  sandbox_isFrozen : bool;
}.

(** The part of the application the two gates read and write: the
    Overmind state under its JavaScript paths, and the two browser globals
    [localStorage.jwt] and [document.cookie]. *)
Record World : Type := {
  state_hasLoadedApp : bool;
  state_isAuthenticating : bool;
  state_hasLogIn : bool;
  state_user : option CurrentUser;
  state_dashboard_activeTeam : JSValue;
  state_contributors : list string;
  state_editor_currentSandbox : option Sandbox;
  state_editor_isForkingSandbox : bool;
  state_editor_sessionFrozen : bool;
  localStorage_jwt : option string;
  document_cookie : gmap string string;
}.

(** The assignments the two gates make, one constructor per left-hand
    side. *)
Inductive Write : Type :=
  | set_isAuthenticating (b : bool)
  | set_hasLogIn (b : bool)
  | set_hasLoadedApp (b : bool)
  | set_user (u : CurrentUser)
  | set_dashboard_activeTeam (v : JSValue)
  | set_contributors (logins : list string)
  | set_editor_sessionFrozen (b : bool)
  | expire_cookie (name : string)
  | delete_localStorage_jwt.

Definition write (a : Write) (w : World) : World :=
  {| state_hasLoadedApp :=
       match a with set_hasLoadedApp b => b | _ => state_hasLoadedApp w end;
     state_isAuthenticating :=
       match a with set_isAuthenticating b => b | _ => state_isAuthenticating w end;
     state_hasLogIn :=
       match a with set_hasLogIn b => b | _ => state_hasLogIn w end;
     state_user :=
       match a with set_user u => Some u | _ => state_user w end;
     state_dashboard_activeTeam :=
       match a with set_dashboard_activeTeam v => v | _ => state_dashboard_activeTeam w end;
     state_contributors :=
       match a with set_contributors l => l | _ => state_contributors w end;
     state_editor_currentSandbox := state_editor_currentSandbox w;
     state_editor_isForkingSandbox := state_editor_isForkingSandbox w;
     state_editor_sessionFrozen :=
       match a with set_editor_sessionFrozen b => b | _ => state_editor_sessionFrozen w end;
     localStorage_jwt :=
       match a with delete_localStorage_jwt => None | _ => localStorage_jwt w end;
     document_cookie :=
       match a with expire_cookie name => delete name (document_cookie w)
                  | _ => document_cookie w end |}.

(** ** Collaborators *)

(** A collaborator reached through the context: it may change the state
    (an awaited one also stands for whatever else runs while the caller is
    suspended) and ends in an outcome. *)
Definition Eff (A : Type) : Type := World -> World * Outcome A.

(** [Contributor]: only [login] is read. *)
Record Contributor : Type := {
  login : string;
}.

(** The response of [effects.http.get].  [None] stands for a body in
    which [response.data.contributors.map] cannot be evaluated. *)
Record HttpResponse : Type := {
  data_contributors : option (list Contributor);
}.

(** [context.effects] *)
Record Effects : Type := {
  connection_addListener : Eff unit;
  codesandboxApi_listen : Eff unit;
  api_getCurrentUser : Eff CurrentUser;
  analytics_identify : string -> bool -> Eff unit;
  analytics_setUserId : string -> string -> Eff unit;
  browser_storage_get : string -> Eff JSValue;
  live_getSocket : Eff unit;
  api_preloadTemplates : Eff unit;
  analytics_setAnonymousId : Eff unit;
  http_get : string -> Eff HttpResponse;
}.

(** [context.actions] *)
Record Actions : Type := {
  internal_setStoredSettings : Eff unit;
  internal_setPatronPrice : Eff unit;
  internal_trackCurrentTeams : Eff unit;
  internal_showUserSurveyIfNeeded : Eff unit;
  userNotifications_internal_initialize : Eff unit;
  internal_handleError : string -> JSValue -> Eff unit;
  signInClicked : bool -> Eff JSValue;
  editor_internal_forkSandbox : string -> Eff unit;
  modals_forkFrozenModal_open : Eff JSValue;
}.

Record Context : Type := {
  effects : Effects;
  actions : Actions;
}.

(** [AsyncAction<T>] *)
Definition AsyncAction : Type := Context -> JSValue -> Eff JSValue.

(** The member of [NotificationStatus] this file uses. *)
Inductive NotificationStatus : Type := NOTICE.

Record NotificationButton : Type := {
  label : string;
  run : Eff JSValue;
}.

Record Notification : Type := {
  title : string;
  sticky : bool;
  message : string;
  status : NotificationStatus;
  actions_primary : list NotificationButton;
}.

(** The functions imported at module level.  They are called with plain
    data and are never handed the context, so only their outcome matters
    here.  [hasPermission authorization permission] is the comparison of
    [@codesandbox/common/lib/utils/permission]. *)
Record Imports : Type := {
  hasPermission : string -> string -> bool;
  identify : string -> bool -> Outcome unit;
  notificationState_addNotification : Notification -> Outcome unit;
}.

(** ** Traces *)

(** The calls the gates make, named by their JavaScript paths. *)
Module Call.
Inductive t : Type :=
  | connection_addListener
  | internal_setStoredSettings
  | codesandboxApi_listen
  | notificationState_addNotification
  | api_getCurrentUser
  | internal_setPatronPrice
  | analytics_identify (key : string) (value : bool)
  | analytics_setUserId (id email : string)
  | browser_storage_get (key : string)
  | internal_trackCurrentTeams
  | internal_showUserSurveyIfNeeded
  | live_getSocket
  | userNotifications_internal_initialize
  | api_preloadTemplates
  | internal_handleError (message : string) (error : JSValue)
  | identify (key : string) (value : bool)
  | analytics_setAnonymousId
  | http_get (url : string)
  | continueAction (payload : JSValue)
  | cancelAction (payload : JSValue)
  | editor_internal_forkSandbox (sandboxId : string)
  | modals_forkFrozenModal_open.
End Call.

(** How a call ended, without its value. *)
Definition ended {A : Type} (o : Outcome A) : Outcome unit :=
  match o with
  | Returned _ => Returned tt
  | Thrown e => Thrown e
  | Hangs => Hangs
  end.

(** What an invocation did, in program order: each call it made with the
    way the call ended, and each assignment. *)
Inductive Event : Type :=
  | Called (c : Call.t) (r : Outcome unit)
  | Assigned (a : Write).

Record Machine : Type := {
  world : World;
  trace : list Event;
}.

(** ** Statements *)

(** The completion of a statement: it falls through with a value, leaves
    the function by [return], throws, or is suspended at an [await] that
    never resumes. *)
Inductive Completion (A : Type) : Type :=
  | Normal (a : A)
  | Return (v : JSValue)
  | Throw (e : JSValue)
  | Suspended.
Arguments Normal {A} a.
Arguments Return {A} v.
Arguments Throw {A} e.
Arguments Suspended {A}.

Definition Stmt (A : Type) : Type := Machine -> Machine * Completion A.

Definition ret {A : Type} (a : A) : Stmt A := fun m => (m, Normal a).

(** [c; k]: the rest runs only when [c] falls through. *)
Definition bind {A B : Type} (c : Stmt A) (k : A -> Stmt B) : Stmt B :=
  fun m =>
    match c m with
    | (m1, Normal a) => k a m1
    | (m1, Return v) => (m1, Return v)
    | (m1, Throw e) => (m1, Throw e)
    | (m1, Suspended) => (m1, Suspended)
    end.

Declare Scope stmt_scope.
Delimit Scope stmt_scope with stmt.
Bind Scope stmt_scope with Stmt.
Notation "x ← y ; z" := (bind y (fun x => z))
  (at level 20, y at level 100, z at level 200, only parsing) : stmt_scope.
Notation "x ;; z" := (bind x (fun _ => z))
  (at level 100, z at level 200, only parsing, right associativity) : stmt_scope.
Local Open Scope stmt_scope.

Definition skip : Stmt unit := ret tt.

(** [return v;] *)
Definition return_ (v : JSValue) : Stmt unit := fun m => (m, Return v).

(** [throw e;] and the errors raised by the language itself *)
Definition throw (e : JSValue) : Stmt unit := fun m => (m, Throw e).

(** Reading from the state or a browser global *)
Definition read {A : Type} (f : World -> A) : Stmt A :=
  fun m => (m, Normal (f (world m))).

(** An assignment (or [delete]) *)
Definition assign (a : Write) : Stmt unit :=
  fun m => ({| world := write a (world m); trace := trace m ++ [Assigned a] |}, Normal tt).

(** A call of a collaborator, awaited or not *)
Definition call {A : Type} (c : Call.t) (f : Eff A) : Stmt A :=
  fun m =>
    let '(w1, o) := f (world m) in
    let m1 := {| world := w1; trace := trace m ++ [Called c (ended o)] |} in
    match o with
    | Returned a => (m1, Normal a)
    | Thrown e => (m1, Throw e)
    | Hangs => (m1, Suspended)
    end.

(** A call of a module-level import *)
Definition call_import {A : Type} (c : Call.t) (o : Outcome A) : Stmt A :=
  call c (fun w => (w, o)).

(** [if (b) { s }] *)
Definition when (b : bool) (s : Stmt unit) : Stmt unit := if b then s else skip.

(** [try { body } catch (e) { handler e }] *)
Definition try_catch (body : Stmt unit) (handler : JSValue -> Stmt unit) : Stmt unit :=
  fun m =>
    match body m with
    | (m1, Throw e) => handler e m1
    | r => r
    end.

(** The body of an [async] function as seen by whoever awaits it *)
Definition async_function (body : Stmt unit) : Machine -> Machine * Outcome JSValue :=
  fun m =>
    match body m with
    | (m1, Normal _) => (m1, Returned VUndefined)
    | (m1, Return v) => (m1, Returned v)
    | (m1, Throw e) => (m1, Thrown e)
    | (m1, Suspended) => (m1, Hangs)
    end.

(** The machine at the start of an invocation *)
Definition start (w : World) : Machine := {| world := w; trace := [] |}.

(** A gated action: an [AsyncAction] whose steps are recorded. *)
Definition GatedAction : Type := Context -> JSValue -> Machine -> Machine * Outcome JSValue.

(** The same action with its trace forgotten, as the next wrapper or the
    dispatcher sees it. *)
Definition as_action (g : GatedAction) : AsyncAction :=
  fun context value w =>
    let '(m, o) := g context value (start w) in (world m, o).

(** ** The app-load gate *)

Definition TEAM_ID_LOCAL_STORAGE : string := "codesandbox-selected-team-id".

Definition CONTRIBUTORS_URL : string :=
  "https://raw.githubusercontent.com/codesandbox/codesandbox-client/master/.all-contributorsrc".

Definition SIGN_IN_TROUBLE : string := "We had trouble with signing you in".

(** [localStorage.jwt] as an expression: the stored string, or
    [undefined]. *)
Definition stored (item : option string) : JSValue :=
  match item with
  | Some s => VStr s
  | None => VUndefined
  end.

(** The notification of lines 42-58. *)
Definition sessionExpired (actions : Actions) : Notification :=
  {| title := "Session Expired";
     sticky := true;
     message := "Whoops, your session has been expired! Please sign in again to continue.";
     status := NOTICE;
     actions_primary := [ {| label := "Sign in"; run := signInClicked actions false |} ] |}.

Definition withLoadApp (imports : Imports) (continueAction : option AsyncAction)
  : GatedAction :=
  fun context value =>
    let effects := effects context in
    let actions := actions context in
    async_function (
      hasLoadedApp ← read state_hasLoadedApp;
      match hasLoadedApp, continueAction with
      | true, Some continueAction =>
          call (Call.continueAction value) (continueAction context value);;
          return_ VUndefined
      | _, _ => skip
      end;;
      hasLoadedApp ← read state_hasLoadedApp;
      when hasLoadedApp (return_ VUndefined);;

      assign (set_isAuthenticating true);;

      call Call.connection_addListener (connection_addListener effects);;
      call Call.internal_setStoredSettings (internal_setStoredSettings actions);;
      call Call.codesandboxApi_listen (codesandboxApi_listen effects);;

      jwt ← read localStorage_jwt;
      when (truthy (stored jwt)) (
        assign (expire_cookie "signedIn");;
        assign (set_hasLogIn false);;
        assign delete_localStorage_jwt;;
        call_import Call.notificationState_addNotification
          (notificationState_addNotification imports (sessionExpired actions))
      );;

      hasLogIn ← read state_hasLogIn;
      (if hasLogIn then
         try_catch (
           user ← call Call.api_getCurrentUser (api_getCurrentUser effects);
           assign (set_user user);;
           call Call.internal_setPatronPrice (internal_setPatronPrice actions);;
           call (Call.analytics_identify "signed_in" true)
             (analytics_identify effects "signed_in" true);;
           user ← read state_user;
           match user with
           | Some user =>
               call (Call.analytics_setUserId (user_id user) (user_email user))
                 (analytics_setUserId effects (user_id user) (user_email user))
           | None => throw TypeError
           end;;
           localStorageTeam ←
             call (Call.browser_storage_get TEAM_ID_LOCAL_STORAGE)
               (browser_storage_get effects TEAM_ID_LOCAL_STORAGE);
           when (truthy localStorageTeam) (
             assign (set_dashboard_activeTeam localStorageTeam)
           );;
           try_catch (
             call Call.internal_trackCurrentTeams (internal_trackCurrentTeams actions)
           ) (fun e =>
             (* Not majorly important *)
             skip
           );;
           call Call.internal_showUserSurveyIfNeeded
             (internal_showUserSurveyIfNeeded actions);;
           call Call.live_getSocket (live_getSocket effects);;
           call Call.userNotifications_internal_initialize
             (userNotifications_internal_initialize actions);;
           call Call.api_preloadTemplates (api_preloadTemplates effects);;
           assign (set_hasLogIn true)
         ) (fun error =>
           call (Call.internal_handleError SIGN_IN_TROUBLE error)
             (internal_handleError actions SIGN_IN_TROUBLE error)
         )
       else
         call_import (Call.identify "signed_in" false) (identify imports "signed_in" false);;
         call Call.analytics_setAnonymousId (analytics_setAnonymousId effects));;

      match continueAction with
      | Some continueAction =>
          call (Call.continueAction value) (continueAction context value);;
          skip
      | None => skip
      end;;

      assign (set_hasLoadedApp true);;
      assign (set_isAuthenticating false);;

      try_catch (
        response ← call (Call.http_get CONTRIBUTORS_URL) (http_get effects CONTRIBUTORS_URL);
        match data_contributors response with
        | Some contributors => assign (set_contributors (map login contributors))
        | None => throw TypeError
        end
      ) (fun error =>
        (* Something wrong in the parsing probably *)
        skip
      )
    ).

(** ** The ownership gate *)

(** The default of the parameter [cancelAction]: [() => Promise.resolve()] *)
Definition resolved_promise : AsyncAction := fun _ _ w => (w, Returned VUndefined).

(** The condition of line 125.  [requiredPermission] is [None] when the
    argument is [undefined]. *)
Definition denied (imports : Imports) (requiredPermission : option string)
    (sandbox : Sandbox) : bool :=
  match requiredPermission with
  | None => negb (sandbox_owned sandbox)
  | Some permission =>
      negb (hasPermission imports (sandbox_authorization sandbox) permission)
  end.

(** The fields of [sandbox] are read from the object found at line 123. *)
Definition withOwnedSandbox (imports : Imports) (continueAction : AsyncAction)
    (cancelAction : option AsyncAction) (requiredPermission : option string)
  : GatedAction :=
  fun context payload =>
    let cancelAction := default resolved_promise cancelAction in
    let actions := actions context in
    async_function (
      sandbox ← read state_editor_currentSandbox;
      match sandbox with
      | Some sandbox =>
          if denied imports requiredPermission sandbox then
            isForkingSandbox ← read state_editor_isForkingSandbox;
            when isForkingSandbox (
              result ← call (Call.cancelAction payload) (cancelAction context payload);
              return_ result
            );;
            try_catch (
              call (Call.editor_internal_forkSandbox (sandbox_id sandbox))
                (editor_internal_forkSandbox actions (sandbox_id sandbox))
            ) (fun e =>
              result ← call (Call.cancelAction payload) (cancelAction context payload);
              return_ result
            )
          else
            sessionFrozen ← read state_editor_sessionFrozen;
            when (sandbox_isFrozen sandbox && sessionFrozen) (
              modalResponse ←
                call Call.modals_forkFrozenModal_open (modals_forkFrozenModal_open actions);
              if strict_eq_str modalResponse "fork" then
                try_catch (
                  call (Call.editor_internal_forkSandbox (sandbox_id sandbox))
                    (editor_internal_forkSandbox actions (sandbox_id sandbox))
                ) (fun e =>
                  result ← call (Call.cancelAction payload) (cancelAction context payload);
                  return_ result
                )
              else if strict_eq_str modalResponse "unfreeze" then
                assign (set_editor_sessionFrozen false)
              else if strict_eq_str modalResponse "cancel" then
                result ← call (Call.cancelAction payload) (cancelAction context payload);
                return_ result
              else skip
            )
      | None => skip
      end;;
      result ← call (Call.continueAction payload) (continueAction context payload);
      return_ result
    ).

(** ** Reading a trace of the app-load gate *)

(** The calls of the logged-in sequence, lines 63-81. *)
Definition signed_in_call (c : Call.t) : bool :=
  match c with
  | Call.api_getCurrentUser
  | Call.internal_setPatronPrice
  | Call.analytics_identify _ _
  | Call.analytics_setUserId _ _
  | Call.browser_storage_get _
  | Call.internal_trackCurrentTeams
  | Call.internal_showUserSurveyIfNeeded
  | Call.live_getSocket
  | Call.userNotifications_internal_initialize
  | Call.api_preloadTemplates => true
  | _ => false
  end.

(** The steps of the logged-in branch, lines 62-88: the sequence, its
    assignments and the report of its failure. *)
Definition signed_in_step (ev : Event) : bool :=
  match ev with
  | Called (Call.internal_handleError _ _) _ => true
  | Called c _ => signed_in_call c
  | Assigned (set_user _)
  | Assigned (set_dashboard_activeTeam _)
  | Assigned (set_hasLogIn true) => true
  | Assigned _ => false
  end.

(** The steps of the logged-in sequence that come after the survey
    trigger, lines 79-82. *)
Definition after_survey_step (ev : Event) : bool :=
  match ev with
  | Called Call.live_getSocket _
  | Called Call.userNotifications_internal_initialize _
  | Called Call.api_preloadTemplates _
  | Assigned (set_hasLogIn true) => true
  | _ => false
  end.

(** The steps that make up the bootstrap and the continuation, lines
    28-96; what follows line 98 is not among them. *)
Definition bootstrap_step (ev : Event) : bool :=
  match ev with
  | Called (Call.http_get _) _ => false
  | Called _ _ => true
  | Assigned (set_hasLoadedApp _)
  | Assigned (set_isAuthenticating false)
  | Assigned (set_contributors _) => false
  | Assigned _ => true
  end.

(** A call that is made inside a [try] block: the logged-in sequence and
    the fetch of the contributors. *)
Definition guarded_call (c : Call.t) : bool :=
  match c with
  | Call.http_get _ => true
  | _ => signed_in_call c
  end.

(** An event that does not end the invocation early: a call that returned
    normally, or one that threw inside a [try] block. *)
Definition recoverable (ev : Event) : bool :=
  match ev with
  | Called _ (Returned _) => true
  | Called c (Thrown _) => guarded_call c
  | Called _ Hangs => false
  | Assigned _ => true
  end.

(** [f] returns normally from every state. *)
Definition returns_normally {A : Type} (f : Eff A) : Prop :=
  forall w, exists w1 a, f w = (w1, Returned a).

(** [f] leaves the two flags of the bootstrap as they are. *)
Definition keeps_flags {A : Type} (f : Eff A) : Prop :=
  forall w,
    state_hasLoadedApp (fst (f w)) = state_hasLoadedApp w /\
    state_isAuthenticating (fst (f w)) = state_isAuthenticating w.

(** [f] leaves [localStorage.jwt] as it is. *)
Definition keeps_token {A : Type} (f : Eff A) : Prop :=
  forall w, localStorage_jwt (fst (f w)) = localStorage_jwt w.

(** What the awaiter of an [async] function that ends in [return;] sees
    of the action it awaited. *)
Definition discard (o : Outcome JSValue) : Outcome JSValue :=
  match o with
  | Returned _ => Returned VUndefined
  | Thrown e => Thrown e
  | Hangs => Hangs
  end.

(** ** Collaborators and states to run the gates on *)

Definition returns {A : Type} (a : A) : Eff A := fun w => (w, Returned a).

Definition throws {A : Type} (e : JSValue) : Eff A := fun w => (w, Thrown e).

Definition example_user : CurrentUser :=
  {| user_id := "user-1"; user_email := "user-1@example.com" |}.

Definition example_effects (getCurrentUser : Eff CurrentUser) : Effects :=
  {| connection_addListener := returns tt;
     codesandboxApi_listen := returns tt;
     api_getCurrentUser := getCurrentUser;
     analytics_identify := fun _ _ => returns tt;
     analytics_setUserId := fun _ _ => returns tt;
     browser_storage_get := fun _ => returns VNull;
     live_getSocket := returns tt;
     api_preloadTemplates := returns tt;
     analytics_setAnonymousId := returns tt;
     http_get := fun _ =>
       returns {| data_contributors := Some [ {| login := "alice" |} ] |} |}.

Definition example_actions (trackCurrentTeams showUserSurveyIfNeeded : Eff unit)
    (forkSandbox : string -> Eff unit) (forkFrozenModal_open : Eff JSValue) : Actions :=
  {| internal_setStoredSettings := returns tt;
     internal_setPatronPrice := returns tt;
     internal_trackCurrentTeams := trackCurrentTeams;
     internal_showUserSurveyIfNeeded := showUserSurveyIfNeeded;
     userNotifications_internal_initialize := returns tt;
     internal_handleError := fun _ _ => returns tt;
     signInClicked := fun _ => returns VUndefined;
     editor_internal_forkSandbox := forkSandbox;
     modals_forkFrozenModal_open := forkFrozenModal_open |}.

(** A context in which every collaborator returns normally and leaves the
    state alone, but for the ones given. *)
Definition example_context (getCurrentUser : Eff CurrentUser)
    (trackCurrentTeams showUserSurveyIfNeeded : Eff unit)
    (forkSandbox : string -> Eff unit) (forkFrozenModal_open : Eff JSValue) : Context :=
  {| effects := example_effects getCurrentUser;
     actions := example_actions trackCurrentTeams showUserSurveyIfNeeded
                  forkSandbox forkFrozenModal_open |}.

Definition quiet_context : Context :=
  example_context (returns example_user) (returns tt) (returns tt)
    (fun _ => returns tt) (returns (VStr "cancel")).

(** Imports that return normally; the permission asked for is granted
    when it is the sandbox's own authorization. *)
Definition example_imports : Imports :=
  {| hasPermission := String.eqb;
     identify := fun _ _ => Returned tt;
     notificationState_addNotification := fun _ => Returned tt |}.

(** Imports of which the notification throws, and imports of which the
    analytics identification does. *)
Definition unnotified_imports : Imports :=
  {| hasPermission := String.eqb;
     identify := fun _ _ => Returned tt;
     notificationState_addNotification := fun _ => Thrown (VError "NotificationError") |}.

Definition unidentified_imports : Imports :=
  {| hasPermission := String.eqb;
     identify := fun _ _ => Thrown (VError "AnalyticsError");
     notificationState_addNotification := fun _ => Returned tt |}.

(** An action that resolves with its payload, and one that rejects. *)
Definition echo : AsyncAction := fun _ payload => returns payload.

Definition failing : AsyncAction := fun _ _ => throws (VError "Error").

Definition example_sandbox (owned isFrozen : bool) : Sandbox :=
  {| sandbox_id := "sandbox-1";
     sandbox_owned := owned;
     sandbox_authorization := if owned then "owner" else "read";
     sandbox_isFrozen := isFrozen |}.

Definition example_world (hasLoadedApp hasLogIn : bool) (jwt : option string)
    (sandbox : option Sandbox) (isForkingSandbox sessionFrozen : bool) : World :=
  {| state_hasLoadedApp := hasLoadedApp;
     state_isAuthenticating := false;
     state_hasLogIn := hasLogIn;
     state_user := None;
     state_dashboard_activeTeam := VNull;
     state_contributors := [];
     state_editor_currentSandbox := sandbox;
     state_editor_isForkingSandbox := isForkingSandbox;
     state_editor_sessionFrozen := sessionFrozen;
     localStorage_jwt := jwt;
     document_cookie := ∅ |}.

(** A context in which the profile fetch is rejected. *)
Definition offline_context : Context :=
  example_context (throws (VError "NetworkError")) (returns tt) (returns tt)
    (fun _ => returns tt) (returns (VStr "cancel")).

(** A context in which the survey trigger throws, and one in which team
    tracking does. *)
Definition survey_failure_context : Context :=
  example_context (returns example_user) (returns tt) (throws (VError "SurveyError"))
    (fun _ => returns tt) (returns (VStr "cancel")).

Definition tracking_failure_context : Context :=
  example_context (returns example_user) (throws (VError "TrackingError")) (returns tt)
    (fun _ => returns tt) (returns (VStr "cancel")).

(** A context in which forking fails, and one in which the freeze prompt
    is answered with "unfreeze". *)
Definition fork_failure_context : Context :=
  example_context (returns example_user) (returns tt) (returns tt)
    (fun _ => throws (VError "ForkError")) (returns (VStr "cancel")).

Definition unfreeze_context : Context :=
  example_context (returns example_user) (returns tt) (returns tt)
    (fun _ => returns tt) (returns (VStr "unfreeze")).

(** The state before the first dispatch: signed in or not, with or
    without a legacy token, no sandbox opened. *)
Definition fresh_world (hasLogIn : bool) (jwt : option string) : World :=
  example_world false hasLogIn jwt None false false.

(** A state with an active sandbox. *)
Definition editing_world (owned isFrozen isForkingSandbox sessionFrozen : bool) : World :=
  example_world true true None (Some (example_sandbox owned isFrozen))
    isForkingSandbox sessionFrozen.

(** ** More to read the factories with *)

(** Promise [p] is pending and no modal can settle it any more. *)
Definition abandoned (p : nat) (s : Modals.Store) : Prop :=
  Modals.promises s !! p = Some Modals.Pending /\
  (forall name, Modals.resolver s !! name <> Some p).

(** Lines 28-92 of [withLoadApp] on their own: the entry into the
    bootstrap window, the set-up calls, the legacy-token migration and the
    identification of the visitor. *)
Definition bootstrap (imports : Imports) (context : Context) : Stmt unit :=
  let effects := effects context in
  let actions := actions context in
  assign (set_isAuthenticating true);;

  call Call.connection_addListener (connection_addListener effects);;
  call Call.internal_setStoredSettings (internal_setStoredSettings actions);;
  call Call.codesandboxApi_listen (codesandboxApi_listen effects);;

  jwt ← read localStorage_jwt;
  when (truthy (stored jwt)) (
    assign (expire_cookie "signedIn");;
    assign (set_hasLogIn false);;
    assign delete_localStorage_jwt;;
    call_import Call.notificationState_addNotification
      (notificationState_addNotification imports (sessionExpired actions))
  );;

  hasLogIn ← read state_hasLogIn;
  (if hasLogIn then
     try_catch (
       user ← call Call.api_getCurrentUser (api_getCurrentUser effects);
       assign (set_user user);;
       call Call.internal_setPatronPrice (internal_setPatronPrice actions);;
       call (Call.analytics_identify "signed_in" true)
         (analytics_identify effects "signed_in" true);;
       user ← read state_user;
       match user with
       | Some user =>
           call (Call.analytics_setUserId (user_id user) (user_email user))
             (analytics_setUserId effects (user_id user) (user_email user))
       | None => throw TypeError
       end;;
       localStorageTeam ←
         call (Call.browser_storage_get TEAM_ID_LOCAL_STORAGE)
           (browser_storage_get effects TEAM_ID_LOCAL_STORAGE);
       when (truthy localStorageTeam) (
         assign (set_dashboard_activeTeam localStorageTeam)
       );;
       try_catch (
         call Call.internal_trackCurrentTeams (internal_trackCurrentTeams actions)
       ) (fun e => skip);;
       call Call.internal_showUserSurveyIfNeeded
         (internal_showUserSurveyIfNeeded actions);;
       call Call.live_getSocket (live_getSocket effects);;
       call Call.userNotifications_internal_initialize
         (userNotifications_internal_initialize actions);;
       call Call.api_preloadTemplates (api_preloadTemplates effects);;
       assign (set_hasLogIn true)
     ) (fun error =>
       call (Call.internal_handleError SIGN_IN_TROUBLE error)
         (internal_handleError actions SIGN_IN_TROUBLE error)
     )
   else
     call_import (Call.identify "signed_in" false) (identify imports "signed_in" false);;
     call Call.analytics_setAnonymousId (analytics_setAnonymousId effects)).

(** Lines 94-113 of [withLoadApp] on their own: the continuation, the end
    of the bootstrap window and the fetch of the contributors. *)
Definition conclude (continueAction : option AsyncAction) (context : Context)
    (value : JSValue) : Stmt unit :=
  let effects := effects context in
  match continueAction with
  | Some continueAction =>
      call (Call.continueAction value) (continueAction context value);;
      skip
  | None => skip
  end;;

  assign (set_hasLoadedApp true);;
  assign (set_isAuthenticating false);;

  try_catch (
    response ← call (Call.http_get CONTRIBUTORS_URL) (http_get effects CONTRIBUTORS_URL);
    match data_contributors response with
    | Some contributors => assign (set_contributors (map login contributors))
    | None => throw TypeError
    end
  ) (fun error => skip).

(** The steps of the anonymous branch, lines 90-91. *)
Definition anonymous_step (ev : Event) : bool :=
  match ev with
  | Called (Call.identify _ _) _
  | Called Call.analytics_setAnonymousId _ => true
  | _ => false
  end.

(** An assignment to [state.dashboard.activeTeam]. *)
Definition restores_team (ev : Event) : bool :=
  match ev with
  | Assigned (set_dashboard_activeTeam _) => true
  | _ => false
  end.

(** A report to the centralized error handler. *)
Definition reports_error (ev : Event) : bool :=
  match ev with
  | Called (Call.internal_handleError _ _) _ => true
  | _ => false
  end.

(** The steps of lines 94-113. *)
Definition concluding_step (ev : Event) : bool :=
  match ev with
  | Called (Call.continueAction _) _
  | Called (Call.http_get _) _
  | Assigned (set_hasLoadedApp _)
  | Assigned (set_isAuthenticating false)
  | Assigned (set_contributors _) => true
  | _ => false
  end.

(** What an [async] function makes of the completion of its body. *)
Definition settled (c : Completion unit) : Outcome JSValue :=
  match c with
  | Normal _ => Returned VUndefined
  | Return v => Returned v
  | Throw e => Thrown e
  | Suspended => Hangs
  end.

(** A context in which a team id is found in the browser's storage. *)
Definition team_context : Context :=
  {| effects :=
       {| connection_addListener := returns tt;
          codesandboxApi_listen := returns tt;
          api_getCurrentUser := returns example_user;
          analytics_identify := fun _ _ => returns tt;
          analytics_setUserId := fun _ _ => returns tt;
          browser_storage_get := fun _ => returns (VStr "team-1");
          live_getSocket := returns tt;
          api_preloadTemplates := returns tt;
          analytics_setAnonymousId := returns tt;
          http_get := fun _ =>
            returns {| data_contributors := Some [ {| login := "alice" |} ] |} |};
     actions := actions quiet_context |}.

(** First invocations to read the properties on: a signed-in visitor, a
    visitor with a legacy token, a continuation that rejects, a profile
    that cannot be fetched. *)
Abbreviation signed_in_run :=
  (withLoadApp example_imports (Some echo) team_context (VNum 1)
    (start (fresh_world true None))).

Abbreviation legacy_run :=
  (withLoadApp example_imports (Some echo) quiet_context (VNum 1)
    (start (fresh_world true (Some "legacy-token")))).

Abbreviation rejected_run :=
  (withLoadApp example_imports (Some failing) quiet_context (VNum 1)
    (start (fresh_world false None))).

Abbreviation offline_run :=
  (withLoadApp example_imports None offline_context VUndefined
    (start (fresh_world true None))).

(** A context in which the freeze prompt is dismissed with an error, one
    in which it resolves with nothing, and one in which it resolves with
    "fork". *)
Definition dismissed_prompt_context : Context :=
  example_context (returns example_user) (returns tt) (returns tt)
    (fun _ => returns tt) (throws (VError "Dismissed")).

Definition silent_prompt_context : Context :=
  example_context (returns example_user) (returns tt) (returns tt)
    (fun _ => returns tt) (returns VUndefined).

Definition fork_prompt_context : Context :=
  example_context (returns example_user) (returns tt) (returns tt)
    (fun _ => returns tt) (returns (VStr "fork")).

(** * Properties *)

(** ** The modal factory *)

Section modal_factory.
Import Modals.

Implicit Types (modals : gmap string ModalDef) (name : string) (s : Store).

Lemma reducer_fold_current (l : list (string * ModalDef)) (aggr : Aggregate) :
  agg_current (fold_left reducer l aggr) = agg_current aggr.
Proof.
  revert aggr. induction l as [|[n d] l IH]; intros aggr; simpl; [done|].
  by rewrite IH.
Qed.

Lemma reducer_fold_actions (l : list (string * ModalDef)) (aggr : Aggregate) name def :
  NoDup l.*1 -> (name, def) ∈ l ->
  agg_actions (fold_left reducer l aggr) !! name
  = Some (modal_actions (createModal name def)).
Proof.
  induction l as [|[n d] l IH] using rev_ind; intros Hnd Hin.
  - by apply elem_of_nil in Hin.
  - rewrite fold_left_app. simpl.
    rewrite fmap_app in Hnd. apply NoDup_app in Hnd as (Hl & Hfresh & _).
    apply elem_of_app in Hin as [Hin|Hin].
    + rewrite lookup_insert_ne; [by apply IH|].
      intros ->. apply (Hfresh name); simpl.
      * apply list_elem_of_fmap. by exists (name, def).
      * apply list_elem_of_singleton. done.
    + apply list_elem_of_singleton in Hin. injection Hin as -> ->.
      by rewrite lookup_insert_eq.
Qed.

Lemma reducer_fold_actions_None (l : list (string * ModalDef)) (aggr : Aggregate) name :
  name ∉ l.*1 -> agg_actions aggr !! name = None ->
  agg_actions (fold_left reducer l aggr) !! name = None.
Proof.
  revert aggr. induction l as [|[n d] l IH]; intros aggr Hnot Hacc; simpl; [done|].
  apply IH.
  - intros Hin. apply Hnot. simpl. by apply list_elem_of_further.
  - simpl. rewrite lookup_insert_ne; [done|].
    intros ->. apply Hnot. simpl. apply list_elem_of_here.
Qed.

Lemma reducer_fold_state (l : list (string * ModalDef)) (aggr : Aggregate) name :
  name ∈ l.*1 -> is_Some (agg_state (fold_left reducer l aggr) !! name).
Proof.
  induction l as [|[n d] l IH] using rev_ind; intros Hin.
  - by apply elem_of_nil in Hin.
  - rewrite fold_left_app. simpl.
    destruct (decide (n = name)) as [->|Hne].
    + rewrite lookup_insert_eq. by eexists.
    + rewrite lookup_insert_ne; [|done]. apply IH.
      rewrite fmap_app in Hin. apply elem_of_app in Hin as [Hin|Hin]; [done|].
      apply list_elem_of_singleton in Hin. simpl in Hin. congruence.
Qed.

(** Every entry of [modals] gets the pair of actions that [createModal]
    builds for it, and nothing else gets any. *)
Lemma createModals_actions modals name :
  agg_actions (createModals modals) !! name
  = (fun def => modal_actions (createModal name def)) <$> modals !! name.
Proof.
  unfold createModals. destruct (modals !! name) as [def|] eqn:Hdef; simpl.
  - apply reducer_fold_actions.
    + apply NoDup_fst_map_to_list.
    + by apply elem_of_map_to_list.
  - apply reducer_fold_actions_None; [|done].
    intros Hin. apply list_elem_of_fmap in Hin as ([n d] & -> & Hin).
    apply elem_of_map_to_list in Hin. simpl in Hdef. congruence.
Qed.

Lemma createModals_state modals name :
  is_Some (modals !! name) -> is_Some (agg_state (createModals modals) !! name).
Proof.
  intros [def Hdef]. apply reducer_fold_state.
  apply list_elem_of_fmap. exists (name, def). split; [done|].
  by apply elem_of_map_to_list.
Qed.

Lemma createModals_current modals : agg_current (createModals modals) = None.
Proof. apply reducer_fold_current. Qed.

Lemma createModals_actions_inv modals name a :
  agg_actions (createModals modals) !! name = Some a ->
  exists def, modals !! name = Some def /\ a = modal_actions (createModal name def).
Proof.
  rewrite createModals_actions. destruct (modals !! name) as [def|]; simpl; [|done].
  intros [= <-]. by exists def.
Qed.

(** *** Stores reached by dispatching *)

Lemma well_formed_mount modals :
  well_formed (createModals modals) (mount (createModals modals)).
Proof.
  split; simpl.
  - intros name [a Ha]. apply createModals_actions_inv in Ha as (def & Hdef & _).
    apply createModals_state. by eexists.
  - intros name p Hp. by rewrite lookup_empty in Hp.
Qed.

Lemma well_formed_open m name newState s :
  well_formed m s -> well_formed m (fst (open name newState s)).
Proof.
  intros [Hst Hres]. unfold open; simpl.
  destruct (modalState s !! name) as [target|] eqn:Ht; simpl; [|by split].
  split; simpl.
  - intros n Hn. destruct (decide (name = n)) as [->|Hne].
    + rewrite lookup_insert_eq. by eexists.
    + rewrite lookup_insert_ne; [|done]. by apply Hst.
  - intros n p. rewrite length_app; simpl.
    destruct (decide (name = n)) as [->|Hne].
    + rewrite lookup_insert_eq. intros [= <-]. lia.
    + rewrite lookup_insert_ne; [|done]. intros Hp. apply Hres in Hp. lia.
Qed.

Lemma length_resolve p v (ps : list PromiseState) :
  length (resolve p v ps) = length ps.
Proof.
  unfold resolve. destruct (ps !! p) as [[|w]|]; [|done..].
  by rewrite length_insert.
Qed.

Lemma lookup_resolve_ne p q v (ps : list PromiseState) :
  p ≠ q -> resolve p v ps !! q = ps !! q.
Proof.
  intros Hne. unfold resolve. destruct (ps !! p) as [[|w]|]; [|done..].
  by rewrite list_lookup_insert_ne.
Qed.

Lemma lookup_resolve_pending p v (ps : list PromiseState) :
  ps !! p = Some Pending -> resolve p v ps !! p = Some (Resolved v).
Proof.
  intros Hp. unfold resolve. rewrite Hp.
  apply list_lookup_insert_eq. by eapply lookup_lt_Some.
Qed.

Lemma well_formed_close m name def payload s :
  well_formed m s -> well_formed m (fst (close name def payload s)).
Proof.
  intros [Hst Hres]. unfold close; simpl.
  destruct (resolver s !! name) as [p|] eqn:Hp; simpl; [|by split].
  split; simpl; [done|].
  intros n q Hq. rewrite length_resolve. by eapply Hres.
Qed.

Lemma well_formed_dispatch modals d s :
  well_formed (createModals modals) s ->
  well_formed (createModals modals) (dispatch (createModals modals) d s).
Proof.
  intros Hwf. destruct d as [n ns|n payload]; simpl.
  - destruct (agg_actions (createModals modals) !! n) as [a|] eqn:Ha; [|done].
    apply createModals_actions_inv in Ha as (def & _ & ->). simpl.
    by apply well_formed_open.
  - destruct (agg_actions (createModals modals) !! n) as [a|] eqn:Ha; [|done].
    apply createModals_actions_inv in Ha as (def & _ & ->). simpl.
    by apply well_formed_close.
Qed.

Lemma well_formed_run modals ds s :
  well_formed (createModals modals) s ->
  well_formed (createModals modals) (run (createModals modals) ds s).
Proof.
  revert s. induction ds as [|d ds IH]; intros s Hwf; simpl; [done|].
  apply IH. by apply well_formed_dispatch.
Qed.

(** In such a store [open] always hands out a fresh pending promise that
    only its own modal can settle. *)
Lemma open_returns m name newState s :
  well_formed m s -> is_Some (agg_actions m !! name) ->
  exists s1,
    open name newState s = (s1, Returned (length (promises s))) /\
    current s1 = Some name /\
    resolver s1 !! name = Some (length (promises s)) /\
    awaited_by name (length (promises s)) s1.
Proof.
  intros [Hst Hres] Hname. unfold open; simpl.
  destruct (Hst name Hname) as [target ->].
  eexists; split; [reflexivity|]. simpl; split; [done|].
  split; [by rewrite lookup_insert_eq|]. split; simpl.
  - rewrite lookup_app_r; [|lia]. by rewrite Nat.sub_diag.
  - intros other. destruct (decide (name = other)) as [->|Hne]; [done|].
    rewrite lookup_insert_ne; [|done]. intros Hp. apply Hres in Hp. lia.
Qed.

(** A promise some modal is waiting on stays pending whatever is
    dispatched, as long as that modal is not closed. *)
Lemma awaited_by_dispatch modals name p d s :
  closes name d = false ->
  awaited_by name p s -> awaited_by name p (dispatch (createModals modals) d s).
Proof.
  intros Hd [Hp Honly]. destruct d as [n ns|n payload]; simpl.
  - destruct (agg_actions (createModals modals) !! n) as [a|] eqn:Ha; [|by split].
    apply createModals_actions_inv in Ha as (def & _ & ->). simpl.
    unfold open; simpl.
    destruct (modalState s !! n) as [target|]; simpl; [|by split].
    pose proof (lookup_lt_Some _ _ _ Hp) as Hlt.
    split; simpl.
    + by rewrite lookup_app_l.
    + intros other. destruct (decide (n = other)) as [->|Hne].
      * rewrite lookup_insert_eq. intros [= <-]. lia.
      * rewrite lookup_insert_ne; [|done]. apply Honly.
  - simpl in Hd. apply bool_decide_eq_false in Hd.
    destruct (agg_actions (createModals modals) !! n) as [a|] eqn:Ha; [|by split].
    apply createModals_actions_inv in Ha as (def & _ & ->). simpl.
    unfold close; simpl.
    destruct (resolver s !! n) as [q|] eqn:Hq; simpl; [|by split].
    split; simpl; [|done].
    rewrite lookup_resolve_ne; [done|].
    intros ->. by apply Honly in Hq.
Qed.

Lemma awaited_by_run modals name p ds s :
  forallb (fun d => negb (closes name d)) ds = true ->
  awaited_by name p s -> awaited_by name p (run (createModals modals) ds s).
Proof.
  revert s. induction ds as [|d ds IH]; intros s Hds Hp; simpl; [done|].
  simpl in Hds. apply andb_prop in Hds as [Hd Hds].
  apply IH; [done|]. apply awaited_by_dispatch; [|done].
  by apply negb_true_iff.
Qed.

(** The [resolver] of a modal changes only when that modal is opened. *)
Lemma resolver_dispatch modals name d s :
  opens name d = false ->
  resolver (dispatch (createModals modals) d s) !! name = resolver s !! name.
Proof.
  intros Hd. destruct d as [n ns|n payload]; simpl.
  - simpl in Hd. apply bool_decide_eq_false in Hd.
    destruct (agg_actions (createModals modals) !! n) as [a|] eqn:Ha; [|done].
    apply createModals_actions_inv in Ha as (def & _ & ->). simpl.
    unfold open; simpl.
    destruct (modalState s !! n) as [target|]; simpl; [|done].
    by rewrite lookup_insert_ne.
  - destruct (agg_actions (createModals modals) !! n) as [a|] eqn:Ha; [|done].
    apply createModals_actions_inv in Ha as (def & _ & ->). simpl.
    unfold close; simpl.
    by destruct (resolver s !! n).
Qed.

Lemma resolver_run modals name ds s :
  forallb (fun d => negb (opens name d)) ds = true ->
  resolver (run (createModals modals) ds s) !! name = resolver s !! name.
Proof.
  revert s. induction ds as [|d ds IH]; intros s Hds; simpl; [done|].
  simpl in Hds. apply andb_prop in Hds as [Hd Hds].
  rewrite IH; [|done]. apply resolver_dispatch. by apply negb_true_iff.
Qed.

Lemma forallb_andb {A} (f g : A -> bool) (l : list A) :
  forallb (fun x => f x && g x) l = true ->
  forallb f l = true /\ forallb g l = true.
Proof.
  induction l as [|x l IH]; simpl; [done|].
  intros H. apply andb_prop in H as [Hx Hl]. apply andb_prop in Hx as [Hf Hg].
  destruct (IH Hl) as [IHf IHg]. by rewrite Hf, Hg, IHf, IHg.
Qed.

(** *** The claims *)

(** C1, as stated, fails: a payload that is falsy is not passed on.  The
    modal [confirmModal] declares the default result [true]; it is
    opened on the freshly mounted store and closed with the payload
    [false]; the promise of that [open] is resolved with [true]. *)
Lemma close_false_payload_counterexample :
  agg_actions (createModals example_modals) !! "confirmModal" = Some confirm_actions /\
  snd (act_open confirm_actions None (mount (createModals example_modals)))
    = Returned 0 /\
  promises (fst (act_open confirm_actions None (mount (createModals example_modals))))
    !! 0 = Some Pending /\
  promises
    (fst (act_close confirm_actions (VBool false)
       (fst (act_open confirm_actions None (mount (createModals example_modals)))))) !! 0
    = Some (Resolved (VBool true)) /\
  Resolved (VBool true) <> Resolved (VBool false).
Proof.
  split; [by rewrite createModals_actions|].
  split; [vm_compute; reflexivity|].
  split; [vm_compute; reflexivity|].
  split; [vm_compute; reflexivity|].
  discriminate.
Qed.

(** C1, amended: for every modal produced by [createModals], in any
    store reached by dispatching, [open] returns a pending promise; after
    any further dispatches that neither open nor close this modal,
    [close] returns normally, sets the selector [current] to [null] and
    resolves that promise with the payload when the payload is truthy,
    and with the modal's declared default result when the payload is
    omitted or otherwise falsy. *)
Theorem close_resolves_open modals name def a before newState mid payload :
  modals !! name = Some def ->
  agg_actions (createModals modals) !! name = Some a ->
  forallb (fun d => negb (closes name d) && negb (opens name d)) mid = true ->
  exists s1 p s2,
    act_open a newState
      (run (createModals modals) before (mount (createModals modals)))
      = (s1, Returned p) /\
    promises (run (createModals modals) mid s1) !! p = Some Pending /\
    act_close a payload (run (createModals modals) mid s1) = (s2, Returned VUndefined) /\
    current s2 = None /\
    promises s2 !! p
      = Some (Resolved (if truthy payload then payload else def_result def)).
Proof.
  intros Hdef Ha Hmid.
  apply forallb_andb in Hmid as [Hclose Hopen].
  pose proof Ha as Ha'.
  apply createModals_actions_inv in Ha' as (def' & Hdef' & ->).
  assert (def' = def) as -> by congruence. simpl.
  set (m := createModals modals) in *.
  assert (well_formed m (run m before (mount m))) as Hwf
    by (apply well_formed_run, well_formed_mount).
  destruct (open_returns m name newState _ Hwf (ex_intro _ _ Ha))
    as (s1 & Hopened & _ & Hres & Hawait).
  exists s1, (length (promises (run m before (mount m)))).
  set (p := length (promises (run m before (mount m)))) in *.
  pose proof (awaited_by_run modals name p mid s1 Hclose Hawait) as [Hpending _].
  pose proof (resolver_run modals name mid s1 Hopen) as Hres'.
  fold m in Hpending, Hres'. rewrite Hres in Hres'.
  eexists. split; [done|]. split; [done|].
  unfold close; simpl. rewrite Hres'. split; [reflexivity|]. simpl.
  split; [done|]. by apply lookup_resolve_pending.
Qed.

(** C1, amended, on [confirmModal], closed with the payload [7] after
    another modal has been opened and closed. *)
Lemma close_resolves_open_witness :
  example_modals !! "confirmModal" = Some confirm_def /\
  agg_actions (createModals example_modals) !! "confirmModal" = Some confirm_actions /\
  forallb (fun d => negb (closes "confirmModal" d) && negb (opens "confirmModal" d))
    [DoOpen "forkFrozenModal" None; DoClose "forkFrozenModal" (VStr "cancel")] = true /\
  exists s1 p s2,
    act_open confirm_actions (Some {[ "title" := VStr "Sure?" ]})
      (run (createModals example_modals) [DoClose "confirmModal" VUndefined]
         (mount (createModals example_modals)))
      = (s1, Returned p) /\
    promises
      (run (createModals example_modals)
         [DoOpen "forkFrozenModal" None; DoClose "forkFrozenModal" (VStr "cancel")] s1)
      !! p = Some Pending /\
    act_close confirm_actions (VNum 7)
      (run (createModals example_modals)
         [DoOpen "forkFrozenModal" None; DoClose "forkFrozenModal" (VStr "cancel")] s1)
      = (s2, Returned VUndefined) /\
    current s2 = None /\
    promises s2 !! p = Some (Resolved (VNum 7)).
Proof.
  split; [vm_compute; reflexivity|].
  split; [by rewrite createModals_actions|].
  split; [vm_compute; reflexivity|].
  apply (close_resolves_open example_modals "confirmModal" confirm_def confirm_actions
           [DoClose "confirmModal" VUndefined] (Some {[ "title" := VStr "Sure?" ]})
           [DoOpen "forkFrozenModal" None; DoClose "forkFrozenModal" (VStr "cancel")]
           (VNum 7)).
  - vm_compute; reflexivity.
  - by rewrite createModals_actions.
  - vm_compute; reflexivity.
Defined.

(** C4: for modals A and B produced by [createModals], after [open] of A
    and then, with no [close] of A in between, [open] of B, the selector
    [current] is B's name, B is the only modal whose [isCurrent] holds,
    and the promise returned by the [open] of A is still pending. *)
Theorem second_open_overrides_current modals A B actionsA actionsB
    before newStateA mid newStateB :
  A <> B ->
  agg_actions (createModals modals) !! A = Some actionsA ->
  agg_actions (createModals modals) !! B = Some actionsB ->
  forallb (fun d => negb (closes A d)) mid = true ->
  exists s1 p s2 q,
    act_open actionsA newStateA
      (run (createModals modals) before (mount (createModals modals)))
      = (s1, Returned p) /\
    act_open actionsB newStateB (run (createModals modals) mid s1) = (s2, Returned q) /\
    current s2 = Some B /\
    (forall name, isCurrent name s2 = true <-> name = B) /\
    promises s2 !! p = Some Pending /\
    p <> q.
Proof.
  intros _ HA HB Hmid.
  pose proof HA as HA'. pose proof HB as HB'.
  apply createModals_actions_inv in HA' as (defA & _ & ->).
  apply createModals_actions_inv in HB' as (defB & _ & ->). simpl.
  set (m := createModals modals) in *.
  assert (well_formed m (run m before (mount m))) as Hwf
    by (apply well_formed_run, well_formed_mount).
  destruct (open_returns m A newStateA _ Hwf (ex_intro _ _ HA))
    as (s1 & HopenA & _ & _ & Hawait).
  set (p := length (promises (run m before (mount m)))) in *.
  assert (well_formed m s1) as Hwf1.
  { replace s1 with (fst (open A newStateA (run m before (mount m))))
      by (by rewrite HopenA).
    by apply well_formed_open. }
  assert (well_formed m (run m mid s1)) as Hwf2 by (by apply well_formed_run).
  pose proof (awaited_by_run modals A p mid s1 Hmid Hawait) as Hawait2.
  fold m in Hawait2.
  destruct (open_returns m B newStateB _ Hwf2 (ex_intro _ _ HB))
    as (s2 & HopenB & Hcur & _ & _).
  exists s1, p, s2, (length (promises (run m mid s1))).
  split; [done|]. split; [done|]. split; [done|].
  pose proof (lookup_lt_Some _ _ _ (proj1 Hawait2)) as Hlt.
  split; [|split; [|lia]].
  - intros name. unfold isCurrent. rewrite Hcur, bool_decide_eq_true.
    split; [by intros [= ->]|by intros ->].
  - pose proof (awaited_by_dispatch modals A p (DoOpen B newStateB) _ eq_refl Hawait2)
      as [Hp _].
    simpl in Hp. fold m in Hp. rewrite HB in Hp. simpl in Hp.
    by rewrite HopenB in Hp.
Qed.

(** C4 on the two modals of the registry, opened on the mounted store. *)
Lemma second_open_overrides_current_witness :
  "confirmModal" <> "forkFrozenModal" /\
  agg_actions (createModals example_modals) !! "confirmModal" = Some confirm_actions /\
  agg_actions (createModals example_modals) !! "forkFrozenModal"
    = Some forkFrozen_actions /\
  forallb (fun d => negb (closes "confirmModal" d)) [] = true /\
  exists s1 p s2 q,
    act_open confirm_actions None
      (run (createModals example_modals) [] (mount (createModals example_modals)))
      = (s1, Returned p) /\
    act_open forkFrozen_actions None (run (createModals example_modals) [] s1)
      = (s2, Returned q) /\
    current s2 = Some "forkFrozenModal" /\
    (forall name, isCurrent name s2 = true <-> name = "forkFrozenModal") /\
    promises s2 !! p = Some Pending /\
    p <> q.
Proof.
  split; [discriminate|].
  split; [by rewrite createModals_actions|].
  split; [by rewrite createModals_actions|].
  split; [reflexivity|].
  apply (second_open_overrides_current example_modals "confirmModal" "forkFrozenModal"
           confirm_actions forkFrozen_actions [] None [] None).
  - discriminate.
  - by rewrite createModals_actions.
  - by rewrite createModals_actions.
  - reflexivity.
Defined.

(** C9: for every modal produced by [createModals], as long as that
    modal has never been opened, [close] sets the selector [current] to
    [null] and then throws a [TypeError], its [resolver] being
    [undefined]; nothing else in the store changes. *)
Theorem close_before_open_throws modals name a ds payload :
  agg_actions (createModals modals) !! name = Some a ->
  forallb (fun d => negb (opens name d)) ds = true ->
  act_close a payload (run (createModals modals) ds (mount (createModals modals)))
  = ({| current := None;
        modalState :=
          modalState (run (createModals modals) ds (mount (createModals modals)));
        resolver :=
          resolver (run (createModals modals) ds (mount (createModals modals)));
        promises :=
          promises (run (createModals modals) ds (mount (createModals modals))) |},
     Thrown TypeError).
Proof.
  intros Ha Hds.
  apply createModals_actions_inv in Ha as (def & _ & ->). simpl.
  unfold close; simpl.
  rewrite (resolver_run modals name ds _ Hds). simpl.
  by rewrite lookup_empty.
Qed.

(** C9 on [confirmModal], closed while only the other modal has been
    opened. *)
Lemma close_before_open_throws_witness :
  agg_actions (createModals example_modals) !! "confirmModal" = Some confirm_actions /\
  forallb (fun d => negb (opens "confirmModal" d)) [DoOpen "forkFrozenModal" None] = true /\
  current
    (fst (act_close confirm_actions (VBool true)
            (run (createModals example_modals) [DoOpen "forkFrozenModal" None]
               (mount (createModals example_modals))))) = None /\
  snd (act_close confirm_actions (VBool true)
         (run (createModals example_modals) [DoOpen "forkFrozenModal" None]
            (mount (createModals example_modals)))) = Thrown TypeError.
Proof.
  split; [by rewrite createModals_actions|].
  split; [vm_compute; reflexivity|].
  rewrite (close_before_open_throws example_modals "confirmModal" confirm_actions
             [DoOpen "forkFrozenModal" None] (VBool true));
    [split; reflexivity|by rewrite createModals_actions|vm_compute; reflexivity].
Defined.

End modal_factory.

(** ** Tactics for the two gates *)

(** Unfolding the statements of a gate down to the calls it makes *)
Ltac unfold_stmt :=
  cbv beta iota delta
    [async_function bind ret skip return_ throw read assign call call_import
       when try_catch start];
  simpl.

(** Walking through the paths of a gate: case analysis on the scrutinee
    that is evaluated first, until none is left. *)
Ltac innermost t :=
  lazymatch t with
  | context [match ?x with _ => _ end] => innermost x
  | _ => t
  end.

Ltac branch :=
  match goal with
  | |- context [match ?x with _ => _ end] =>
      let y := innermost x in destruct y eqn:?
  end.

Ltac explore := repeat (simpl; branch); simpl.

(** Which event of a trace written out in full the hypothesis [Hin] is
    about *)
Ltac pick Hin :=
  simpl in Hin;
  repeat match type of Hin with
         | _ \/ _ => destruct Hin as [Hin|Hin]; [try discriminate Hin|]
         | False => destruct Hin
         end.

(** An event is in a trace written out in full. *)
Ltac in_list := solve [simpl; repeat (first [left; reflexivity | right])].

(** The events before and after the assignment of [hasLoadedApp] *)
Ltac split_trace tr pre :=
  lazymatch tr with
  | Assigned (set_hasLoadedApp true) :: ?post => exists pre, post
  | ?x :: ?rest => split_trace rest constr:((pre ++ [x])%list)
  end.

(** Cuts a trace at the read of the browser's storage. *)
Ltac split_read tr pre :=
  lazymatch tr with
  | Called (Call.browser_storage_get _) _ :: Assigned (set_dashboard_activeTeam _) :: ?post =>
      exists pre, post
  | Called (Call.browser_storage_get _) _ :: ?post => exists pre, post
  | ?x :: ?rest => split_read rest constr:((pre ++ [x])%list)
  end.

(** ** The ownership gate *)

Section ownership_gate.

Variables (imports : Imports) (continueAction : AsyncAction)
  (cancelAction : option AsyncAction) (context : Context) (payload : JSValue).

(** C6, as stated, fails: the sandbox is owned, and a fork is attempted
    all the same when it is frozen under the session's freeze override
    and the prompt is answered with "fork"; when the prompt is answered
    with "cancel" the continuation does not run. *)
Lemma owned_frozen_sandbox_counterexample :
  sandbox_owned (example_sandbox true true) = true /\
  trace (fst (withOwnedSandbox example_imports echo None None
                (example_context (returns example_user) (returns tt) (returns tt)
                   (fun _ => returns tt) (returns (VStr "fork")))
                (VNum 1)
                (start (editing_world true true false true))))
  = [ Called Call.modals_forkFrozenModal_open (Returned tt);
      Called (Call.editor_internal_forkSandbox "sandbox-1") (Returned tt);
      Called (Call.continueAction (VNum 1)) (Returned tt) ] /\
  trace (fst (withOwnedSandbox example_imports echo None None quiet_context (VNum 1)
                (start (editing_world true true false true))))
  = [ Called Call.modals_forkFrozenModal_open (Returned tt);
      Called (Call.cancelAction (VNum 1)) (Returned tt) ].
Proof. repeat split; reflexivity. Qed.

(** C6, amended: with no required permission, whenever the active
    sandbox is owned by the current user and is not frozen under the
    session's freeze override, the gate does nothing but invoke the
    continuation, on the state as it found it, and returns what the
    continuation returns; no fork is attempted and no modal is opened. *)
Theorem owned_sandbox_continues w sandbox :
  state_editor_currentSandbox w = Some sandbox ->
  sandbox_owned sandbox = true ->
  sandbox_isFrozen sandbox && state_editor_sessionFrozen w = false ->
  exists w1 o,
    continueAction context payload w = (w1, o) /\
    withOwnedSandbox imports continueAction cancelAction None context payload (start w)
    = ({| world := w1; trace := [Called (Call.continueAction payload) (ended o)] |}, o).
Proof.
  intros Hsandbox Howned Hfrozen.
  destruct (continueAction context payload w) as [w1 o] eqn:Hcontinue.
  exists w1, o. split; [reflexivity|].
  unfold withOwnedSandbox, denied. unfold_stmt.
  rewrite Hsandbox; simpl. rewrite Howned; simpl. rewrite Hfrozen; simpl.
  rewrite Hcontinue. by destruct o.
Qed.

(** C7: whenever access is denied (the sandbox is not owned, or the
    required permission is not satisfied) and either a fork is already
    in progress or the fork attempt fails, the gate invokes the
    cancellation action and returns what it returns; the continuation is
    not invoked, and the failure of the fork is not thrown on. *)
Theorem denied_without_fork_cancels requiredPermission w sandbox :
  state_editor_currentSandbox w = Some sandbox ->
  denied imports requiredPermission sandbox = true ->
  (state_editor_isForkingSandbox w = true \/
   exists w1 e,
     editor_internal_forkSandbox (actions context) (sandbox_id sandbox) w
     = (w1, Thrown e)) ->
  exists attempted w1 w2 o,
    (attempted = [] /\ w1 = w \/
     exists e,
       attempted = [Called (Call.editor_internal_forkSandbox (sandbox_id sandbox)) (Thrown e)]
       /\ editor_internal_forkSandbox (actions context) (sandbox_id sandbox) w
          = (w1, Thrown e)) /\
    default resolved_promise cancelAction context payload w1 = (w2, o) /\
    withOwnedSandbox imports continueAction cancelAction requiredPermission
      context payload (start w)
    = ({| world := w2;
          trace := attempted ++ [Called (Call.cancelAction payload) (ended o)] |}, o) /\
    (forall r, ~ In (Called (Call.continueAction payload) r)
                 (attempted ++ [Called (Call.cancelAction payload) (ended o)])%list).
Proof.
  intros Hsandbox Hdenied Hfork.
  destruct (state_editor_isForkingSandbox w) eqn:Hforking.
  - destruct (default resolved_promise cancelAction context payload w)
      as [w2 o] eqn:Hcancel.
    exists [], w, w2, o. split; [by left|]. split; [done|]. split.
    + unfold withOwnedSandbox. unfold_stmt.
      rewrite Hsandbox; simpl. rewrite Hdenied; simpl. rewrite Hforking; simpl.
      rewrite Hcancel. by destruct o.
    + intros r [H|[]]. discriminate.
  - destruct Hfork as [?|(w1 & e & Hfails)]; [done|].
    destruct (default resolved_promise cancelAction context payload w1)
      as [w2 o] eqn:Hcancel.
    exists [Called (Call.editor_internal_forkSandbox (sandbox_id sandbox)) (Thrown e)],
      w1, w2, o.
    split; [right; by exists e|]. split; [done|]. split.
    + unfold withOwnedSandbox. unfold_stmt.
      rewrite Hsandbox; simpl. rewrite Hdenied; simpl. rewrite Hforking; simpl.
      rewrite Hfails; simpl. rewrite Hcancel. by destruct o.
    + intros r [H|[H|[]]]; discriminate.
Qed.

(** C8: when access is not denied, the sandbox is frozen and the
    session's freeze override is active, the first thing the gate does is
    to open the freeze prompt; if the prompt resolves with "unfreeze", the
    gate sets [sessionFrozen] to [false], then invokes the continuation
    and returns what it returns. *)
Theorem frozen_unfreeze_continues requiredPermission w sandbox :
  state_editor_currentSandbox w = Some sandbox ->
  denied imports requiredPermission sandbox = false ->
  sandbox_isFrozen sandbox = true ->
  state_editor_sessionFrozen w = true ->
  (exists rest,
     trace (fst (withOwnedSandbox imports continueAction cancelAction requiredPermission
                   context payload (start w)))
     = Called Call.modals_forkFrozenModal_open
         (ended (snd (modals_forkFrozenModal_open (actions context) w))) :: rest) /\
  (forall w1,
     modals_forkFrozenModal_open (actions context) w = (w1, Returned (VStr "unfreeze")) ->
     exists w2 o,
       continueAction context payload (write (set_editor_sessionFrozen false) w1)
       = (w2, o) /\
       state_editor_sessionFrozen (write (set_editor_sessionFrozen false) w1) = false /\
       withOwnedSandbox imports continueAction cancelAction requiredPermission
         context payload (start w)
       = ({| world := w2;
             trace := [ Called Call.modals_forkFrozenModal_open (Returned tt);
                        Assigned (set_editor_sessionFrozen false);
                        Called (Call.continueAction payload) (ended o) ] |}, o)).
Proof.
  intros Hsandbox Hdenied Hfrozen Hsession. split.
  - unfold withOwnedSandbox. unfold_stmt.
    rewrite Hsandbox; simpl. rewrite Hdenied; simpl. rewrite Hfrozen; simpl.
    rewrite Hsession; simpl.
    explore; by eexists.
  - intros w1 Hmodal.
    destruct (continueAction context payload (write (set_editor_sessionFrozen false) w1))
      as [w2 o] eqn:Hcontinue.
    exists w2, o. split; [reflexivity|]. split; [reflexivity|].
    unfold withOwnedSandbox. unfold_stmt.
    rewrite Hsandbox; simpl. rewrite Hdenied; simpl. rewrite Hfrozen; simpl.
    rewrite Hsession; simpl. rewrite Hmodal; simpl. rewrite Hcontinue. by destruct o.
Qed.

End ownership_gate.

(** C6, amended, on an owned sandbox that is not frozen. *)
Lemma owned_sandbox_continues_witness :
  state_editor_currentSandbox (editing_world true false false true)
    = Some (example_sandbox true false) /\
  sandbox_owned (example_sandbox true false) = true /\
  sandbox_isFrozen (example_sandbox true false)
    && state_editor_sessionFrozen (editing_world true false false true) = false /\
  exists w1 o,
    echo quiet_context (VNum 1) (editing_world true false false true) = (w1, o) /\
    withOwnedSandbox example_imports echo None None quiet_context (VNum 1)
      (start (editing_world true false false true))
    = ({| world := w1; trace := [Called (Call.continueAction (VNum 1)) (ended o)] |}, o).
Proof.
  split; [reflexivity|]. split; [reflexivity|]. split; [reflexivity|].
  apply (owned_sandbox_continues example_imports echo None quiet_context (VNum 1)
           (editing_world true false false true) (example_sandbox true false));
    reflexivity.
Defined.

(** C7 on a sandbox that is not owned, under a permission it lacks, with
    a fork that fails. *)
Lemma denied_without_fork_cancels_witness :
  state_editor_currentSandbox (editing_world false false false false)
    = Some (example_sandbox false false) /\
  denied example_imports (Some "write_code") (example_sandbox false false) = true /\
  (state_editor_isForkingSandbox (editing_world false false false false) = true \/
   exists w1 e,
     editor_internal_forkSandbox (actions fork_failure_context)
       (sandbox_id (example_sandbox false false)) (editing_world false false false false)
     = (w1, Thrown e)) /\
  exists attempted w1 w2 o,
    (attempted = [] /\ w1 = editing_world false false false false \/
     exists e,
       attempted
       = [Called (Call.editor_internal_forkSandbox (sandbox_id (example_sandbox false false)))
            (Thrown e)]
       /\ editor_internal_forkSandbox (actions fork_failure_context)
            (sandbox_id (example_sandbox false false)) (editing_world false false false false)
          = (w1, Thrown e)) /\
    default resolved_promise (Some echo) fork_failure_context (VNum 1) w1 = (w2, o) /\
    withOwnedSandbox example_imports failing (Some echo) (Some "write_code")
      fork_failure_context (VNum 1) (start (editing_world false false false false))
    = ({| world := w2;
          trace := attempted ++ [Called (Call.cancelAction (VNum 1)) (ended o)] |}, o) /\
    (forall r, ~ In (Called (Call.continueAction (VNum 1)) r)
                 (attempted ++ [Called (Call.cancelAction (VNum 1)) (ended o)])%list).
Proof.
  assert (exists w1 e,
            editor_internal_forkSandbox (actions fork_failure_context)
              (sandbox_id (example_sandbox false false))
              (editing_world false false false false)
            = (w1, Thrown e)) as Hfails
    by (eexists _, _; reflexivity).
  split; [reflexivity|]. split; [reflexivity|]. split; [by right|].
  apply (denied_without_fork_cancels example_imports failing (Some echo)
           fork_failure_context (VNum 1) (Some "write_code")
           (editing_world false false false false) (example_sandbox false false));
    [reflexivity|reflexivity|by right].
Defined.

(** C8 on an owned, frozen sandbox under the session's freeze override,
    the prompt being answered with "unfreeze". *)
Lemma frozen_unfreeze_continues_witness :
  state_editor_currentSandbox (editing_world true true false true)
    = Some (example_sandbox true true) /\
  denied example_imports None (example_sandbox true true) = false /\
  sandbox_isFrozen (example_sandbox true true) = true /\
  state_editor_sessionFrozen (editing_world true true false true) = true /\
  modals_forkFrozenModal_open (actions unfreeze_context) (editing_world true true false true)
    = (editing_world true true false true, Returned (VStr "unfreeze")) /\
  exists w2 o,
    echo unfreeze_context (VNum 1)
      (write (set_editor_sessionFrozen false) (editing_world true true false true))
    = (w2, o) /\
    state_editor_sessionFrozen
      (write (set_editor_sessionFrozen false) (editing_world true true false true)) = false /\
    withOwnedSandbox example_imports echo None None unfreeze_context (VNum 1)
      (start (editing_world true true false true))
    = ({| world := w2;
          trace := [ Called Call.modals_forkFrozenModal_open (Returned tt);
                     Assigned (set_editor_sessionFrozen false);
                     Called (Call.continueAction (VNum 1)) (ended o) ] |}, o).
Proof.
  split; [reflexivity|]. split; [reflexivity|]. split; [reflexivity|].
  split; [reflexivity|]. split; [reflexivity|].
  apply (frozen_unfreeze_continues example_imports echo None unfreeze_context (VNum 1)
           None (editing_world true true false true) (example_sandbox true true));
    reflexivity.
Defined.

(** ** The app-load gate *)

Section app_load_gate.

Variables (imports : Imports) (continueAction : option AsyncAction)
  (context : Context) (value : JSValue).

(** C5: when [hasLoadedApp] is already true, the gate makes no call and
    no assignment of its own: with a continuation it invokes it with the
    same context and payload, on the state as it found it, and ends as
    the continuation ends; with none it returns at once. *)
Theorem loaded_app_only_continues w :
  state_hasLoadedApp w = true ->
  withLoadApp imports continueAction context value (start w)
  = match continueAction with
    | Some continueAction =>
        let '(w1, o) := continueAction context value w in
        ({| world := w1; trace := [Called (Call.continueAction value) (ended o)] |},
         discard o)
    | None => (start w, Returned VUndefined)
    end.
Proof.
  intros Hloaded. unfold withLoadApp. unfold_stmt.
  rewrite Hloaded; simpl.
  destruct continueAction as [k|]; simpl.
  - by destruct (k context value w) as [w1 [a|e|]].
  - by rewrite Hloaded.
Qed.

(** C2, as stated, fails: the continuation is awaited outside any [try]
    block, so when it rejects the invocation ends there, with
    [hasLoadedApp] still false and [isAuthenticating] still true. *)
Lemma rejected_continuation_counterexample :
  state_hasLoadedApp (fresh_world false None) = false /\
  snd (withLoadApp example_imports (Some failing) quiet_context (VNum 1)
         (start (fresh_world false None))) = Thrown (VError "Error") /\
  state_hasLoadedApp
    (world (fst (withLoadApp example_imports (Some failing) quiet_context (VNum 1)
                   (start (fresh_world false None))))) = false /\
  state_isAuthenticating
    (world (fst (withLoadApp example_imports (Some failing) quiet_context (VNum 1)
                   (start (fresh_world false None))))) = true.
Proof. repeat split; reflexivity. Qed.

(** C2, amended: in a first invocation, whenever [hasLoadedApp] is
    assigned, every step of the bootstrap and the continuation comes
    before that assignment and nothing but the end of the bootstrap
    window and the fetch of the contributors comes after it: by then the
    three set-up calls have returned, the visitor has been identified
    (anonymously, or by a completed logged-in sequence, or the failure of
    that sequence has been reported), and the continuation, if one was
    supplied, has returned.  And whenever every call made outside a [try]
    block returns normally and no call hangs, whether the logged-in
    sequence fails or not, the invocation returns and has assigned
    [hasLoadedApp]; it ends with [hasLoadedApp] true and
    [isAuthenticating] false if the fetch of the contributors leaves the
    two flags alone. *)
Theorem bootstrap_precedes_hasLoadedApp w m o :
  state_hasLoadedApp w = false ->
  withLoadApp imports continueAction context value (start w) = (m, o) ->
  (In (Assigned (set_hasLoadedApp true)) (trace m) ->
   exists pre post,
     trace m = (pre ++ Assigned (set_hasLoadedApp true) :: post)%list /\
     forallb bootstrap_step pre = true /\
     forallb (fun ev => negb (bootstrap_step ev)) post = true /\
     In (Called Call.connection_addListener (Returned tt)) pre /\
     In (Called Call.internal_setStoredSettings (Returned tt)) pre /\
     In (Called Call.codesandboxApi_listen (Returned tt)) pre /\
     (In (Called Call.analytics_setAnonymousId (Returned tt)) pre \/
      In (Assigned (set_hasLogIn true)) pre \/
      exists e,
        In (Called (Call.internal_handleError SIGN_IN_TROUBLE e) (Returned tt)) pre) /\
     (is_Some continueAction ->
      In (Called (Call.continueAction value) (Returned tt)) pre)) /\
  (forallb recoverable (trace m) = true ->
   keeps_flags (http_get (effects context) CONTRIBUTORS_URL) ->
   o = Returned VUndefined /\
   In (Assigned (set_hasLoadedApp true)) (trace m) /\
   state_hasLoadedApp (world m) = true /\
   state_isAuthenticating (world m) = false).
Proof.
  intros Hloaded. unfold withLoadApp. unfold_stmt.
  rewrite Hloaded; simpl. rewrite Hloaded; simpl.
  explore.
  all: intros [= <- <-]; simpl.
  all: split; [intros Hin; pick Hin|].
  all: try match goal with
         | |- exists pre post, ?tr = _ /\ _ => split_trace tr (@nil Event)
         end.
  all: try (simpl; split; [reflexivity|]; split; [reflexivity|];
            split; [reflexivity|];
            split; [in_list|]; split; [in_list|]; split; [in_list|]; split;
            [first [left; in_list | right; left; in_list
                   | right; right; eexists; in_list]
            |first [intros _; in_list | by intros [? ?]]]).
  all: intros Hrecoverable Hkeeps; simpl in Hrecoverable;
    try discriminate Hrecoverable.
  all: match goal with
       | H : http_get _ _ ?w0 = (_, _) |- _ =>
           destruct (Hkeeps w0) as [K1 K2]; rewrite H in K1, K2; simpl in K1, K2
       end.
  all: split; [reflexivity|]; split; [in_list|]; simpl; split; assumption.
Qed.

(** C3, as stated, fails: the survey trigger throws, and the error
    handler is called with what it threw; the steps that follow the
    trigger in the logged-in sequence are not taken. *)
Lemma survey_failure_counterexample :
  trace (fst (withLoadApp example_imports None survey_failure_context VUndefined
                (start (fresh_world true None))))
  = [ Assigned (set_isAuthenticating true);
      Called Call.connection_addListener (Returned tt);
      Called Call.internal_setStoredSettings (Returned tt);
      Called Call.codesandboxApi_listen (Returned tt);
      Called Call.api_getCurrentUser (Returned tt);
      Assigned (set_user example_user);
      Called Call.internal_setPatronPrice (Returned tt);
      Called (Call.analytics_identify "signed_in" true) (Returned tt);
      Called (Call.analytics_setUserId "user-1" "user-1@example.com") (Returned tt);
      Called (Call.browser_storage_get TEAM_ID_LOCAL_STORAGE) (Returned tt);
      Called Call.internal_trackCurrentTeams (Returned tt);
      Called Call.internal_showUserSurveyIfNeeded (Thrown (VError "SurveyError"));
      Called (Call.internal_handleError SIGN_IN_TROUBLE (VError "SurveyError"))
        (Returned tt);
      Assigned (set_hasLoadedApp true);
      Assigned (set_isAuthenticating false);
      Called (Call.http_get CONTRIBUTORS_URL) (Returned tt);
      Assigned (set_contributors ["alice"]) ].
Proof. reflexivity. Qed.

(** C3, amended: a failure raised by the user-survey trigger is caught
    by the handler of the logged-in sequence, which reports it through
    the centralized error handler under the fixed message; the steps
    that follow the trigger in that sequence (socket, user
    notifications, template preload, confirming [hasLogIn]) are not
    taken.  A failure raised by team tracking is discarded: the survey
    trigger is called all the same. *)
Theorem survey_failure_is_reported w m o :
  withLoadApp imports continueAction context value (start w) = (m, o) ->
  (forall e,
     In (Called Call.internal_showUserSurveyIfNeeded (Thrown e)) (trace m) ->
     (exists r, In (Called (Call.internal_handleError SIGN_IN_TROUBLE e) r) (trace m)) /\
     forallb (fun ev => negb (after_survey_step ev)) (trace m) = true) /\
  (forall e,
     In (Called Call.internal_trackCurrentTeams (Thrown e)) (trace m) ->
     exists r, In (Called Call.internal_showUserSurveyIfNeeded r) (trace m)).
Proof.
  unfold withLoadApp. unfold_stmt.
  explore.
  all: intros [= <- <-]; simpl.
  all: split; intros thrown Hin; pick Hin.
  all: first [ injection Hin as <-; split; [eexists; in_list|reflexivity]
             | eexists; in_list ].
Qed.

(** C10, as stated, fails: the notification of line 42 is posted outside
    any [try] block.  A signed-in visitor has a legacy token and the
    notification throws: [hasLogIn] is set to false and the token
    deleted, then the invocation is rejected with what the notification
    threw, and neither branch of the identification is taken: the
    visitor is not identified as anonymous and no anonymous id is asked
    for.  Likewise when the notification returns and the identification
    of line 90 throws: no anonymous id is asked for. *)
Lemma legacy_token_notification_counterexample :
  state_hasLoadedApp (fresh_world true (Some "legacy-token")) = false /\
  truthy (stored (localStorage_jwt (fresh_world true (Some "legacy-token")))) = true /\
  withLoadApp unnotified_imports (Some echo) quiet_context (VNum 1)
    (start (fresh_world true (Some "legacy-token")))
  = ({| world :=
          write delete_localStorage_jwt
            (write (set_hasLogIn false)
               (write (expire_cookie "signedIn")
                  (write (set_isAuthenticating true)
                     (fresh_world true (Some "legacy-token")))));
        trace :=
          [ Assigned (set_isAuthenticating true);
            Called Call.connection_addListener (Returned tt);
            Called Call.internal_setStoredSettings (Returned tt);
            Called Call.codesandboxApi_listen (Returned tt);
            Assigned (expire_cookie "signedIn");
            Assigned (set_hasLogIn false);
            Assigned delete_localStorage_jwt;
            Called Call.notificationState_addNotification
              (Thrown (VError "NotificationError")) ] |},
     Thrown (VError "NotificationError")) /\
  forallb (fun ev => negb (anonymous_step ev))
    (trace (fst (withLoadApp unnotified_imports (Some echo) quiet_context (VNum 1)
                   (start (fresh_world true (Some "legacy-token")))))) = true /\
  snd (withLoadApp unidentified_imports (Some echo) quiet_context (VNum 1)
         (start (fresh_world true (Some "legacy-token"))))
  = Thrown (VError "AnalyticsError") /\
  last (trace (fst (withLoadApp unidentified_imports (Some echo) quiet_context (VNum 1)
                      (start (fresh_world true (Some "legacy-token"))))))
  = Some (Called (Call.identify "signed_in" false) (Thrown (VError "AnalyticsError"))).
Proof. repeat split; reflexivity. Qed.

(** C10, amended: in a first invocation that finds a legacy token in
    [localStorage.jwt] (the set-up calls leaving the token alone), the
    gate takes no step of the logged-in branch, whatever [hasLogIn] was
    on entry; and when the set-up calls and the two imported functions
    (the notification and the anonymous identification) return normally,
    it sets [hasLogIn] to false and posts the notification before it
    identifies the visitor as anonymous and asks for an anonymous id. *)
Theorem legacy_token_forces_anonymous w m o :
  state_hasLoadedApp w = false ->
  truthy (stored (localStorage_jwt w)) = true ->
  keeps_token (connection_addListener (effects context)) ->
  keeps_token (internal_setStoredSettings (actions context)) ->
  keeps_token (codesandboxApi_listen (effects context)) ->
  withLoadApp imports continueAction context value (start w) = (m, o) ->
  forallb (fun ev => negb (signed_in_step ev)) (trace m) = true /\
  (returns_normally (connection_addListener (effects context)) ->
   returns_normally (internal_setStoredSettings (actions context)) ->
   returns_normally (codesandboxApi_listen (effects context)) ->
   notificationState_addNotification imports (sessionExpired (actions context))
     = Returned tt ->
   identify imports "signed_in" false = Returned tt ->
   exists r rest,
     trace m
     = ([ Assigned (set_isAuthenticating true);
         Called Call.connection_addListener (Returned tt);
         Called Call.internal_setStoredSettings (Returned tt);
         Called Call.codesandboxApi_listen (Returned tt);
         Assigned (expire_cookie "signedIn");
         Assigned (set_hasLogIn false);
         Assigned delete_localStorage_jwt;
         Called Call.notificationState_addNotification (Returned tt);
         Called (Call.identify "signed_in" false) (Returned tt);
         Called Call.analytics_setAnonymousId r ] ++ rest)%list).
Proof.
  intros Hloaded Hjwt K1 K2 K3. unfold withLoadApp. unfold_stmt.
  rewrite Hloaded; simpl. rewrite Hloaded; simpl.
  pose proof (K1 (write (set_isAuthenticating true) w)) as J1.
  pose proof (fun w1 => K2 w1) as J2. pose proof (fun w2 => K3 w2) as J3.
  intros Hrun. split.
  - revert Hrun.
    destruct (connection_addListener (effects context) _) as [w1 [[]|e1|]];
      simpl in *; [|by intros [= <- <-]..].
    specialize (J2 w1).
    destruct (internal_setStoredSettings (actions context) w1) as [w2 [[]|e2|]];
      simpl in *; [|by intros [= <- <-]..].
    specialize (J3 w2).
    destruct (codesandboxApi_listen (effects context) w2) as [w3 [[]|e3|]];
      simpl in *; [|by intros [= <- <-]..].
    rewrite J3, J2, J1, Hjwt; simpl.
    explore.
    all: by intros [= <- <-].
  - intros R1 R2 R3 Hnotification Hidentify. revert Hrun.
    destruct (R1 (write (set_isAuthenticating true) w)) as (w1 & [] & E1).
    rewrite E1 in *; simpl in *.
    destruct (R2 w1) as (w2 & [] & E2). specialize (J2 w1).
    rewrite E2 in *; simpl in *.
    destruct (R3 w2) as (w3 & [] & E3). specialize (J3 w2).
    rewrite E3 in *; simpl in *.
    rewrite J3, J2, J1, Hjwt; simpl.
    rewrite Hnotification; simpl. rewrite Hidentify; simpl.
    explore.
    all: intros [= <- <-]; simpl.
    all: eexists _, _; reflexivity.
Qed.

End app_load_gate.

(** C5 on a state in which the application has been loaded. *)
Lemma loaded_app_only_continues_witness :
  state_hasLoadedApp (editing_world true false false false) = true /\
  withLoadApp example_imports (Some echo) quiet_context (VNum 1)
    (start (editing_world true false false false))
  = ({| world := editing_world true false false false;
        trace := [Called (Call.continueAction (VNum 1)) (Returned tt)] |},
     Returned VUndefined).
Proof.
  split; [reflexivity|].
  exact (loaded_app_only_continues example_imports (Some echo) quiet_context (VNum 1)
           (editing_world true false false false) eq_refl).
Defined.

(** C2, amended, on a first invocation by a signed-in visitor whose
    profile cannot be fetched. *)
Lemma bootstrap_precedes_hasLoadedApp_witness :
  state_hasLoadedApp (fresh_world true None) = false /\
  In (Assigned (set_hasLoadedApp true))
    (trace (fst (withLoadApp example_imports (Some echo) offline_context (VNum 1)
                   (start (fresh_world true None))))) /\
  forallb recoverable
    (trace (fst (withLoadApp example_imports (Some echo) offline_context (VNum 1)
                   (start (fresh_world true None))))) = true /\
  keeps_flags (http_get (effects offline_context) CONTRIBUTORS_URL) /\
  (exists pre post,
     trace (fst (withLoadApp example_imports (Some echo) offline_context (VNum 1)
                   (start (fresh_world true None))))
     = (pre ++ Assigned (set_hasLoadedApp true) :: post)%list /\
     forallb bootstrap_step pre = true /\
     forallb (fun ev => negb (bootstrap_step ev)) post = true /\
     In (Called (Call.internal_handleError SIGN_IN_TROUBLE (VError "NetworkError"))
           (Returned tt)) pre /\
     In (Called (Call.continueAction (VNum 1)) (Returned tt)) pre) /\
  snd (withLoadApp example_imports (Some echo) offline_context (VNum 1)
         (start (fresh_world true None))) = Returned VUndefined /\
  state_hasLoadedApp
    (world (fst (withLoadApp example_imports (Some echo) offline_context (VNum 1)
                   (start (fresh_world true None))))) = true /\
  state_isAuthenticating
    (world (fst (withLoadApp example_imports (Some echo) offline_context (VNum 1)
                   (start (fresh_world true None))))) = false.
Proof.
  assert (In (Assigned (set_hasLoadedApp true))
            (trace (fst (withLoadApp example_imports (Some echo) offline_context (VNum 1)
                           (start (fresh_world true None)))))) as Hassigned
    by (vm_compute; tauto).
  assert (keeps_flags (http_get (effects offline_context) CONTRIBUTORS_URL)) as Hkeeps
    by (intros w; split; reflexivity).
  destruct (bootstrap_precedes_hasLoadedApp example_imports (Some echo) offline_context
              (VNum 1) (fresh_world true None) _ _ eq_refl (surjective_pairing _))
    as [Hordered Hcompleted].
  split; [reflexivity|]. split; [exact Hassigned|]. split; [vm_compute; reflexivity|].
  split; [exact Hkeeps|]. split.
  - destruct (Hordered Hassigned)
      as (pre & post & Htrace & Hpre & Hpost & _ & _ & _ & Hidentified & Hcontinued).
    exists pre, post. split; [exact Htrace|]. split; [exact Hpre|].
    split; [exact Hpost|]. split; [|apply Hcontinued; by eexists].
    destruct Hidentified as [Hanonymous|[Hsigned|[e Hreported]]].
    + exfalso.
      assert (In (Called Call.analytics_setAnonymousId (Returned tt))
                (pre ++ Assigned (set_hasLoadedApp true) :: post)) as Hin
        by (apply in_or_app; by left).
      rewrite <- Htrace in Hin. vm_compute in Hin.
      repeat (destruct Hin as [Hin|Hin]; [discriminate Hin|]). exact Hin.
    + exfalso.
      assert (In (Assigned (set_hasLogIn true))
                (pre ++ Assigned (set_hasLoadedApp true) :: post)) as Hin
        by (apply in_or_app; by left).
      rewrite <- Htrace in Hin. vm_compute in Hin.
      repeat (destruct Hin as [Hin|Hin]; [discriminate Hin|]). exact Hin.
    + assert (In (Called (Call.internal_handleError SIGN_IN_TROUBLE e) (Returned tt))
                (pre ++ Assigned (set_hasLoadedApp true) :: post)) as Hin
        by (apply in_or_app; by left).
      rewrite <- Htrace in Hin. vm_compute in Hin.
      repeat (destruct Hin as [Hin|Hin]; [try discriminate Hin|]); [|destruct Hin].
      injection Hin as <-. exact Hreported.
  - assert (forallb recoverable
              (trace (fst (withLoadApp example_imports (Some echo) offline_context (VNum 1)
                             (start (fresh_world true None))))) = true) as Hrecoverable
      by (vm_compute; reflexivity).
    destruct (Hcompleted Hrecoverable Hkeeps) as (Ho & _ & Hloaded & Hauthenticating).
    split; [exact Ho|]. split; [exact Hloaded|exact Hauthenticating].
Defined.

(** C3, amended, on a first invocation in which the survey trigger
    throws, and on one in which team tracking does. *)
Lemma survey_failure_is_reported_witness :
  In (Called Call.internal_showUserSurveyIfNeeded (Thrown (VError "SurveyError")))
    (trace (fst (withLoadApp example_imports None survey_failure_context VUndefined
                   (start (fresh_world true None))))) /\
  (exists r,
     In (Called (Call.internal_handleError SIGN_IN_TROUBLE (VError "SurveyError")) r)
       (trace (fst (withLoadApp example_imports None survey_failure_context VUndefined
                      (start (fresh_world true None)))))) /\
  forallb (fun ev => negb (after_survey_step ev))
    (trace (fst (withLoadApp example_imports None survey_failure_context VUndefined
                   (start (fresh_world true None))))) = true /\
  In (Called Call.internal_trackCurrentTeams (Thrown (VError "TrackingError")))
    (trace (fst (withLoadApp example_imports None tracking_failure_context VUndefined
                   (start (fresh_world true None))))) /\
  (exists r,
     In (Called Call.internal_showUserSurveyIfNeeded r)
       (trace (fst (withLoadApp example_imports None tracking_failure_context VUndefined
                      (start (fresh_world true None)))))).
Proof.
  assert (In (Called Call.internal_showUserSurveyIfNeeded (Thrown (VError "SurveyError")))
            (trace (fst (withLoadApp example_imports None survey_failure_context VUndefined
                           (start (fresh_world true None)))))) as Hsurvey
    by (vm_compute; tauto).
  assert (In (Called Call.internal_trackCurrentTeams (Thrown (VError "TrackingError")))
            (trace (fst (withLoadApp example_imports None tracking_failure_context
                           VUndefined (start (fresh_world true None)))))) as Htracking
    by (vm_compute; tauto).
  destruct (survey_failure_is_reported example_imports None survey_failure_context
              VUndefined (fresh_world true None) _ _ (surjective_pairing _))
    as [Hreported _].
  destruct (survey_failure_is_reported example_imports None tracking_failure_context
              VUndefined (fresh_world true None) _ _ (surjective_pairing _))
    as [_ Hdiscarded].
  destruct (Hreported _ Hsurvey) as [Hhandler Hskipped].
  split; [exact Hsurvey|]. split; [exact Hhandler|]. split; [exact Hskipped|].
  split; [exact Htracking|]. exact (Hdiscarded _ Htracking).
Defined.

(** C10, amended, on a first invocation by a signed-in visitor who
    still has a legacy token. *)
Lemma legacy_token_forces_anonymous_witness :
  state_hasLoadedApp (fresh_world true (Some "legacy-token")) = false /\
  state_hasLogIn (fresh_world true (Some "legacy-token")) = true /\
  truthy (stored (localStorage_jwt (fresh_world true (Some "legacy-token")))) = true /\
  keeps_token (connection_addListener (effects quiet_context)) /\
  keeps_token (internal_setStoredSettings (actions quiet_context)) /\
  keeps_token (codesandboxApi_listen (effects quiet_context)) /\
  returns_normally (connection_addListener (effects quiet_context)) /\
  returns_normally (internal_setStoredSettings (actions quiet_context)) /\
  returns_normally (codesandboxApi_listen (effects quiet_context)) /\
  forallb (fun ev => negb (signed_in_step ev))
    (trace (fst (withLoadApp example_imports (Some echo) quiet_context (VNum 1)
                   (start (fresh_world true (Some "legacy-token")))))) = true /\
  exists r rest,
    trace (fst (withLoadApp example_imports (Some echo) quiet_context (VNum 1)
                  (start (fresh_world true (Some "legacy-token")))))
    = ([ Assigned (set_isAuthenticating true);
         Called Call.connection_addListener (Returned tt);
         Called Call.internal_setStoredSettings (Returned tt);
         Called Call.codesandboxApi_listen (Returned tt);
         Assigned (expire_cookie "signedIn");
         Assigned (set_hasLogIn false);
         Assigned delete_localStorage_jwt;
         Called Call.notificationState_addNotification (Returned tt);
         Called (Call.identify "signed_in" false) (Returned tt);
         Called Call.analytics_setAnonymousId r ] ++ rest)%list.
Proof.
  assert (forall A (a : A), keeps_token (returns a)) as Hkeeps
    by (intros A a w; reflexivity).
  assert (forall A (a : A), returns_normally (returns a)) as Hreturns
    by (intros A a w; eexists _, _; reflexivity).
  destruct (legacy_token_forces_anonymous example_imports (Some echo) quiet_context
              (VNum 1) (fresh_world true (Some "legacy-token")) _ _
              eq_refl eq_refl (Hkeeps _ tt) (Hkeeps _ tt) (Hkeeps _ tt)
              (surjective_pairing _))
    as [Hanonymous Hprefix].
  split; [reflexivity|]. split; [reflexivity|]. split; [reflexivity|].
  split; [apply Hkeeps|]. split; [apply Hkeeps|]. split; [apply Hkeeps|].
  split; [apply Hreturns|]. split; [apply Hreturns|]. split; [apply Hreturns|].
  split; [exact Hanonymous|].
  exact (Hprefix (Hreturns _ tt) (Hreturns _ tt) (Hreturns _ tt) eq_refl eq_refl).
Defined.

(** * Further properties *)

(** ** The modal factory *)

Section modal_factory_further.
Import Modals.

Implicit Types (modals : gmap string ModalDef) (name : string) (s : Store).

Lemma reducer_fold_state_lookup (l : list (string * ModalDef)) (aggr : Aggregate) name def :
  NoDup l.*1 -> (name, def) ∈ l ->
  agg_state (fold_left reducer l aggr) !! name = Some (modal_state (createModal name def)).
Proof.
  induction l as [|[n d] l IH] using rev_ind; intros Hnd Hin.
  - by apply elem_of_nil in Hin.
  - rewrite fold_left_app. simpl.
    rewrite fmap_app in Hnd. apply NoDup_app in Hnd as (Hl & Hfresh & _).
    apply elem_of_app in Hin as [Hin|Hin].
    + rewrite lookup_insert_ne; [by apply IH|].
      intros ->. apply (Hfresh name); simpl.
      * apply list_elem_of_fmap. by exists (name, def).
      * apply list_elem_of_singleton. done.
    + apply list_elem_of_singleton in Hin. injection Hin as -> ->.
      by rewrite lookup_insert_eq.
Qed.

Lemma reducer_fold_state_None (l : list (string * ModalDef)) (aggr : Aggregate) name :
  name ∉ l.*1 -> agg_state aggr !! name = None ->
  agg_state (fold_left reducer l aggr) !! name = None.
Proof.
  revert aggr. induction l as [|[n d] l IH]; intros aggr Hnot Hacc; simpl; [done|].
  apply IH.
  - intros Hin. apply Hnot. simpl. by apply list_elem_of_further.
  - simpl. rewrite lookup_insert_ne; [done|].
    intros ->. apply Hnot. simpl. apply list_elem_of_here.
Qed.

Lemma createModals_state_lookup modals name :
  agg_state (createModals modals) !! name
  = (fun def => modal_state (createModal name def)) <$> modals !! name.
Proof.
  unfold createModals. destruct (modals !! name) as [def|] eqn:Hdef; simpl.
  - apply reducer_fold_state_lookup.
    + apply NoDup_fst_map_to_list.
    + by apply elem_of_map_to_list.
  - apply reducer_fold_state_None; [|done].
    intros Hin. apply list_elem_of_fmap in Hin as ([n d] & -> & Hin).
    apply elem_of_map_to_list in Hin. simpl in Hdef. congruence.
Qed.

(** X1: for a registry that has no modal named [current] (it would
    share the selector's key) nor [__proto__] (assigning to that key
    sets no property), the aggregate that [createModals] returns starts
    with no current modal and has the names of [modals] for its keys and
    no other: under each name it holds the state object of that modal,
    which is the declared fields (none when no state is declared) with
    the method [isCurrent] of that name put in place of a declared field
    [isCurrent], and the pair of actions made by [createModal] for that
    name and definition. *)
Theorem createModals_aggregate modals name :
  modals !! "current" = None ->
  modals !! "__proto__" = None ->
  agg_current (createModals modals) = None /\
  agg_state (createModals modals) !! name
    = (fun def => <[ "isCurrent" := Derive name ]> (Value <$> default ∅ (def_state def)))
        <$> modals !! name /\
  (forall def, modals !! name = Some def ->
     exists object,
       agg_state (createModals modals) !! name = Some object /\
       object !! "isCurrent" = Some (Derive name) /\
       forall key, key <> "isCurrent" ->
         object !! key = Value <$> default ∅ (def_state def) !! key) /\
  agg_actions (createModals modals) !! name
    = (fun def => {| act_open := open name; act_close := close name def |})
        <$> modals !! name.
Proof.
  intros _ _.
  split; [apply createModals_current|].
  split; [apply createModals_state_lookup|].
  split; [|apply createModals_actions].
  intros def Hdef. rewrite createModals_state_lookup, Hdef. simpl.
  eexists. split; [reflexivity|]. split; [by rewrite lookup_insert_eq|].
  intros key Hkey. rewrite lookup_insert_ne by done.
  by rewrite lookup_fmap.
Qed.

Lemma resolved_dispatch modals d s p v :
  promises s !! p = Some (Resolved v) ->
  promises (dispatch (createModals modals) d s) !! p = Some (Resolved v).
Proof.
  intros Hp. destruct d as [n ns|n payload]; simpl.
  - destruct (agg_actions (createModals modals) !! n) as [a|] eqn:Ha; [|done].
    apply createModals_actions_inv in Ha as (def & _ & ->). simpl.
    unfold open; simpl.
    destruct (modalState s !! n) as [target|]; simpl; [|done].
    rewrite lookup_app_l; [done|]. by eapply lookup_lt_Some.
  - destruct (agg_actions (createModals modals) !! n) as [a|] eqn:Ha; [|done].
    apply createModals_actions_inv in Ha as (def & _ & ->). simpl.
    unfold close; simpl.
    destruct (resolver s !! n) as [q|] eqn:Hq; simpl; [|done].
    destruct (decide (q = p)) as [->|Hne].
    + unfold resolve. by rewrite Hp.
    + by rewrite lookup_resolve_ne.
Qed.

(** X4: a promise handed out by [open] is settled at most once: once it
    is resolved with a value, no later [open] or [close] of any modal
    changes that value; a second [close] of the same modal, in
    particular, is lost. *)
Theorem promise_settles_once modals ds s p v :
  promises s !! p = Some (Resolved v) ->
  promises (run (createModals modals) ds s) !! p = Some (Resolved v).
Proof.
  revert s. induction ds as [|d ds IH]; intros s Hp; simpl; [done|].
  apply IH. by apply resolved_dispatch.
Qed.

Lemma abandoned_dispatch modals p d s :
  abandoned p s -> abandoned p (dispatch (createModals modals) d s).
Proof.
  intros [Hp Hnone]. destruct d as [n ns|n payload]; simpl.
  - destruct (agg_actions (createModals modals) !! n) as [a|] eqn:Ha; [|by split].
    apply createModals_actions_inv in Ha as (def & _ & ->). simpl.
    unfold open; simpl.
    destruct (modalState s !! n) as [target|]; simpl; [|by split].
    pose proof (lookup_lt_Some _ _ _ Hp) as Hlt.
    split; simpl.
    + by rewrite lookup_app_l.
    + intros other. destruct (decide (n = other)) as [->|Hne].
      * rewrite lookup_insert_eq. intros [= <-]. lia.
      * rewrite lookup_insert_ne; [|done]. apply Hnone.
  - destruct (agg_actions (createModals modals) !! n) as [a|] eqn:Ha; [|by split].
    apply createModals_actions_inv in Ha as (def & _ & ->). simpl.
    unfold close; simpl.
    destruct (resolver s !! n) as [q|] eqn:Hq; simpl; [|by split].
    split; simpl; [|done].
    rewrite lookup_resolve_ne; [done|].
    intros ->. by apply Hnone in Hq.
Qed.

Lemma abandoned_run modals p ds s :
  abandoned p s -> abandoned p (run (createModals modals) ds s).
Proof.
  revert s. induction ds as [|d ds IH]; intros s Hp; simpl; [done|].
  apply IH. by apply abandoned_dispatch.
Qed.

Lemma well_formed_open_result m name newState s s1 p :
  well_formed m s -> open name newState s = (s1, Returned p) -> well_formed m s1.
Proof.
  intros Hwf Hopen. replace s1 with (fst (open name newState s)) by (by rewrite Hopen).
  by apply well_formed_open.
Qed.

(** X5: opening a modal again before it was closed overwrites its
    [resolver]: the promise of the first [open] differs from the new one
    and stays pending for ever, whatever is dispatched afterwards, a
    [close] of that modal included. *)
Theorem reopened_modal_abandons_promise modals name a before newState1 mid newState2 after :
  agg_actions (createModals modals) !! name = Some a ->
  forallb (fun d => negb (closes name d)) mid = true ->
  exists s1 p1 s2 p2,
    act_open a newState1
      (run (createModals modals) before (mount (createModals modals)))
      = (s1, Returned p1) /\
    act_open a newState2 (run (createModals modals) mid s1) = (s2, Returned p2) /\
    p1 <> p2 /\
    promises (run (createModals modals) after s2) !! p1 = Some Pending.
Proof.
  intros Ha Hmid.
  pose proof Ha as Ha'.
  apply createModals_actions_inv in Ha' as (def & _ & ->). simpl.
  set (m := createModals modals) in *.
  assert (well_formed m (run m before (mount m))) as Hwf
    by (apply well_formed_run, well_formed_mount).
  destruct (open_returns m name newState1 _ Hwf (ex_intro _ _ Ha))
    as (s1 & Hopen1 & _ & _ & Hawait).
  set (p1 := length (promises (run m before (mount m)))) in *.
  assert (well_formed m (run m mid s1)) as Hwf2
    by (eapply well_formed_run, well_formed_open_result; eauto).
  pose proof (awaited_by_run modals name p1 mid s1 Hmid Hawait) as [Hp1 Honly].
  fold m in Hp1, Honly.
  destruct (open_returns m name newState2 _ Hwf2 (ex_intro _ _ Ha))
    as (s2 & Hopen2 & _ & Hres2 & Hawait2).
  set (p2 := length (promises (run m mid s1))) in *.
  pose proof (lookup_lt_Some _ _ _ Hp1) as Hlt.
  exists s1, p1, s2, p2. split; [done|]. split; [done|]. split; [unfold p2; lia|].
  apply abandoned_run. split.
  - pose proof (awaited_by_dispatch modals name p1 (DoOpen name newState2) _ eq_refl
                  (conj Hp1 Honly)) as [Hp _].
    simpl in Hp. fold m in Hp. rewrite Ha in Hp. simpl in Hp.
    by rewrite Hopen2 in Hp.
  - intros other Hother.
    destruct (decide (other = name)) as [->|Hne].
    + rewrite Hres2 in Hother. injection Hother as Heq. unfold p2 in Heq. lia.
    + assert (resolver s2 !! other = resolver (run m mid s1) !! other) as Hsame.
      { pose proof (resolver_dispatch modals other (DoOpen name newState2)
                      (run m mid s1)) as Hr.
        simpl in Hr. fold m in Hr. rewrite Ha in Hr. simpl in Hr.
        rewrite Hopen2 in Hr. simpl in Hr. apply Hr.
        apply bool_decide_eq_false. congruence. }
      rewrite Hsame in Hother. apply Honly in Hother. done.
Qed.


Lemma modalState_dispatch modals name d s :
  opens name d = false ->
  modalState (dispatch (createModals modals) d s) !! name = modalState s !! name.
Proof.
  intros Hd. destruct d as [n ns|n payload]; simpl.
  - simpl in Hd. apply bool_decide_eq_false in Hd.
    destruct (agg_actions (createModals modals) !! n) as [a|] eqn:Ha; [|done].
    apply createModals_actions_inv in Ha as (def & _ & ->). simpl.
    unfold open; simpl.
    destruct (modalState s !! n) as [target|]; simpl; [|done].
    by rewrite lookup_insert_ne.
  - destruct (agg_actions (createModals modals) !! n) as [a|] eqn:Ha; [|done].
    apply createModals_actions_inv in Ha as (def & _ & ->). simpl.
    unfold close; simpl.
    by destruct (resolver s !! n).
Qed.

(** X3: in a registry that has no modal named [current], the state
    object of a modal is written by its own [open] only: as long as that
    modal is not opened, after any dispatches of other opens and of
    closes it is still the object [createModal] made, the declared
    fields and the method [isCurrent]. *)
Theorem modal_state_changes_only_on_open modals name def ds :
  modals !! "current" = None ->
  modals !! name = Some def ->
  forallb (fun d => negb (opens name d)) ds = true ->
  modalState (run (createModals modals) ds (mount (createModals modals))) !! name
  = Some (<[ "isCurrent" := Derive name ]> (Value <$> default ∅ (def_state def))).
Proof.
  intros _ Hdef Hds.
  assert (forall s, modalState (run (createModals modals) ds s) !! name
                    = modalState s !! name) as Hframe.
  { induction ds as [|d ds IH]; intros s; simpl; [done|].
    simpl in Hds. apply andb_prop in Hds as [Hd Hds].
    rewrite IH; [|done]. apply modalState_dispatch. by apply negb_true_iff. }
  rewrite Hframe. simpl.
  rewrite createModals_state_lookup. by rewrite Hdef.
Qed.

(** X2: in a registry that has no modal named [current], [open] merges
    [newState] (with no field [__proto__]) into the modal's state object
    shallowly: a field that [newState] has takes its value (over the
    method, if its name is [isCurrent]), every other member stays as it
    was, and the state objects of the other modals are left alone; with
    [newState] omitted nothing changes. *)
Theorem open_merges_newState modals name a before newState :
  modals !! "current" = None ->
  default ∅ newState !! "__proto__" = None ->
  agg_actions (createModals modals) !! name = Some a ->
  exists old merged s1 p,
    modalState (run (createModals modals) before (mount (createModals modals))) !! name
      = Some old /\
    act_open a newState (run (createModals modals) before (mount (createModals modals)))
      = (s1, Returned p) /\
    modalState s1 !! name = Some merged /\
    (forall key,
       merged !! key
       = match default ∅ newState !! key with
         | Some v => Some (Value v)
         | None => old !! key
         end) /\
    (newState = None -> merged = old) /\
    (forall other, other <> name ->
       modalState s1 !! other
       = modalState (run (createModals modals) before (mount (createModals modals)))
           !! other).
Proof.
  intros _ _ Ha. pose proof Ha as Ha'.
  apply createModals_actions_inv in Ha' as (def & _ & ->). simpl.
  set (m := createModals modals) in *.
  assert (well_formed m (run m before (mount m))) as [Hst _]
    by (apply well_formed_run, well_formed_mount).
  destruct (Hst name (ex_intro _ _ Ha)) as [old Hold].
  unfold open; simpl. rewrite Hold.
  eexists old, _, _, _. split; [done|]. split; [reflexivity|]. simpl.
  split; [by rewrite lookup_insert_eq|]. split; [|split].
  - intros key. unfold Object_assign.
    destruct (default ∅ newState !! key) as [v|] eqn:Hkey.
    + apply lookup_union_Some_l. by rewrite lookup_fmap, Hkey.
    + rewrite lookup_union_r; [done|]. by rewrite lookup_fmap, Hkey.
  - intros ->. unfold Object_assign. simpl.
    by rewrite fmap_empty, (left_id_L ∅ (∪)).
  - intros other Hne. by rewrite lookup_insert_ne.
Qed.

End modal_factory_further.

Section modal_witnesses.
Import Modals.

(** X4 on [confirmModal], closed with [1] and then with [2]. *)
Lemma promise_settles_once_witness :
  promises
    (run (createModals example_modals)
       [DoOpen "confirmModal" None; DoClose "confirmModal" (VNum 1)]
       (mount (createModals example_modals))) !! 0 = Some (Resolved (VNum 1)) /\
  promises
    (run (createModals example_modals) [DoClose "confirmModal" (VNum 2)]
       (run (createModals example_modals)
          [DoOpen "confirmModal" None; DoClose "confirmModal" (VNum 1)]
          (mount (createModals example_modals)))) !! 0 = Some (Resolved (VNum 1)).
Proof.
  assert (promises
            (run (createModals example_modals)
               [DoOpen "confirmModal" None; DoClose "confirmModal" (VNum 1)]
               (mount (createModals example_modals))) !! 0 = Some (Resolved (VNum 1)))
    as Hresolved by (vm_compute; reflexivity).
  split; [exact Hresolved|].
  exact (promise_settles_once example_modals [DoClose "confirmModal" (VNum 2)] _ 0 (VNum 1)
           Hresolved).
Defined.

(** X5 on [confirmModal], opened twice and then closed twice. *)
Lemma reopened_modal_abandons_promise_witness :
  agg_actions (createModals example_modals) !! "confirmModal" = Some confirm_actions /\
  forallb (fun d => negb (closes "confirmModal" d)) [] = true /\
  exists s1 p1 s2 p2,
    act_open confirm_actions None
      (run (createModals example_modals) [] (mount (createModals example_modals)))
      = (s1, Returned p1) /\
    act_open confirm_actions None (run (createModals example_modals) [] s1)
      = (s2, Returned p2) /\
    p1 <> p2 /\
    promises
      (run (createModals example_modals)
         [DoClose "confirmModal" (VNum 1); DoClose "confirmModal" (VNum 2)] s2) !! p1
      = Some Pending.
Proof.
  assert (agg_actions (createModals example_modals) !! "confirmModal"
          = Some confirm_actions) as Hactions by (by rewrite createModals_actions).
  split; [exact Hactions|]. split; [reflexivity|].
  exact (reopened_modal_abandons_promise example_modals "confirmModal" confirm_actions
           [] None [] None
           [DoClose "confirmModal" (VNum 1); DoClose "confirmModal" (VNum 2)]
           Hactions eq_refl).
Defined.


(** X1 on the registry, read at [confirmModal]. *)
Lemma createModals_aggregate_witness :
  example_modals !! "current" = None /\
  example_modals !! "__proto__" = None /\
  agg_current (createModals example_modals) = None /\
  agg_state (createModals example_modals) !! "confirmModal"
    = Some (<[ "isCurrent" := Derive "confirmModal" ]>
              (Value <$> ({[ "title" := VStr "" ]} : gmap string JSValue))) /\
  agg_actions (createModals example_modals) !! "confirmModal"
    = Some {| act_open := open "confirmModal";
              act_close := close "confirmModal" confirm_def |}.
Proof.
  assert (example_modals !! "current" = None) as Hcurrent by (vm_compute; reflexivity).
  assert (example_modals !! "__proto__" = None) as Hproto by (vm_compute; reflexivity).
  assert (example_modals !! "confirmModal" = Some confirm_def) as Hdef
    by (vm_compute; reflexivity).
  destruct (createModals_aggregate example_modals "confirmModal" Hcurrent Hproto)
    as (Hnull & Hstate & _ & Hactions).
  rewrite Hdef in Hstate, Hactions.
  split; [exact Hcurrent|]. split; [exact Hproto|]. split; [exact Hnull|].
  split; [exact Hstate|exact Hactions].
Defined.

(** X3 on [confirmModal], while the other modal is opened and
    [confirmModal] itself is closed. *)
Lemma modal_state_changes_only_on_open_witness :
  example_modals !! "current" = None /\
  example_modals !! "confirmModal" = Some confirm_def /\
  forallb (fun d => negb (opens "confirmModal" d))
    [DoOpen "forkFrozenModal" None; DoClose "confirmModal" VUndefined] = true /\
  modalState
    (run (createModals example_modals)
       [DoOpen "forkFrozenModal" None; DoClose "confirmModal" VUndefined]
       (mount (createModals example_modals))) !! "confirmModal"
  = Some (<[ "isCurrent" := Derive "confirmModal" ]>
            (Value <$> default ∅ (def_state confirm_def))).
Proof.
  assert (example_modals !! "current" = None) as Hcurrent by (vm_compute; reflexivity).
  assert (example_modals !! "confirmModal" = Some confirm_def) as Hdef
    by (vm_compute; reflexivity).
  split; [exact Hcurrent|]. split; [exact Hdef|]. split; [reflexivity|].
  exact (modal_state_changes_only_on_open example_modals "confirmModal" confirm_def
           [DoOpen "forkFrozenModal" None; DoClose "confirmModal" VUndefined]
           Hcurrent Hdef eq_refl).
Defined.

(** X2 on [confirmModal], opened with a message. *)
Lemma open_merges_newState_witness :
  example_modals !! "current" = None /\
  default ∅ (Some ({[ "message" := VStr "Sure?" ]} : gmap string JSValue)) !! "__proto__"
    = None /\
  agg_actions (createModals example_modals) !! "confirmModal" = Some confirm_actions /\
  exists old merged s1 p,
    modalState (run (createModals example_modals) [] (mount (createModals example_modals)))
      !! "confirmModal" = Some old /\
    act_open confirm_actions (Some {[ "message" := VStr "Sure?" ]})
      (run (createModals example_modals) [] (mount (createModals example_modals)))
      = (s1, Returned p) /\
    modalState s1 !! "confirmModal" = Some merged /\
    (forall key,
       merged !! key
       = match default ∅ (Some ({[ "message" := VStr "Sure?" ]} : gmap string JSValue))
               !! key with
         | Some v => Some (Value v)
         | None => old !! key
         end) /\
    (Some ({[ "message" := VStr "Sure?" ]} : gmap string JSValue) = None -> merged = old) /\
    (forall other, other <> "confirmModal" ->
       modalState s1 !! other
       = modalState
           (run (createModals example_modals) [] (mount (createModals example_modals)))
           !! other).
Proof.
  assert (example_modals !! "current" = None) as Hcurrent by (vm_compute; reflexivity).
  assert (agg_actions (createModals example_modals) !! "confirmModal"
          = Some confirm_actions) as Hactions by (by rewrite createModals_actions).
  split; [exact Hcurrent|]. split; [reflexivity|]. split; [exact Hactions|].
  exact (open_merges_newState example_modals "confirmModal" confirm_actions []
           (Some {[ "message" := VStr "Sure?" ]}) Hcurrent eq_refl Hactions).
Defined.

End modal_witnesses.

(** ** The ownership gate *)

Section ownership_gate_further.

Variables (imports : Imports) (continueAction : AsyncAction)
  (cancelAction : option AsyncAction) (requiredPermission : option string)
  (context : Context) (payload : JSValue).

(** X7: with no active sandbox the gate checks nothing: whatever
    permission is required, it invokes the continuation on the state as it
    found it and returns what the continuation returns. *)
Theorem no_sandbox_continues w :
  state_editor_currentSandbox w = None ->
  exists w1 o,
    continueAction context payload w = (w1, o) /\
    withOwnedSandbox imports continueAction cancelAction requiredPermission
      context payload (start w)
    = ({| world := w1; trace := [Called (Call.continueAction payload) (ended o)] |}, o).
Proof.
  intros Hsandbox.
  destruct (continueAction context payload w) as [w1 o] eqn:Hcontinue.
  exists w1, o. split; [reflexivity|].
  unfold withOwnedSandbox. unfold_stmt.
  rewrite Hsandbox; simpl. rewrite Hcontinue. by destruct o.
Qed.

(** X8: when access is denied, no fork is in progress and the fork
    succeeds, the gate goes on to the continuation, on the state the fork
    left, and returns what the continuation returns; the cancellation
    action is not invoked. *)
Theorem denied_fork_success_continues w sandbox w1 :
  state_editor_currentSandbox w = Some sandbox ->
  denied imports requiredPermission sandbox = true ->
  state_editor_isForkingSandbox w = false ->
  editor_internal_forkSandbox (actions context) (sandbox_id sandbox) w
    = (w1, Returned tt) ->
  exists w2 o,
    continueAction context payload w1 = (w2, o) /\
    withOwnedSandbox imports continueAction cancelAction requiredPermission
      context payload (start w)
    = ({| world := w2;
          trace := [ Called (Call.editor_internal_forkSandbox (sandbox_id sandbox))
                       (Returned tt);
                     Called (Call.continueAction payload) (ended o) ] |}, o).
Proof.
  intros Hsandbox Hdenied Hforking Hfork.
  destruct (continueAction context payload w1) as [w2 o] eqn:Hcontinue.
  exists w2, o. split; [reflexivity|].
  unfold withOwnedSandbox. unfold_stmt.
  rewrite Hsandbox; simpl. rewrite Hdenied; simpl. rewrite Hforking; simpl.
  rewrite Hfork; simpl. rewrite Hcontinue. by destruct o.
Qed.

(** X12: the freeze prompt is awaited outside any [try] block: when it
    rejects, the gate rejects with the same error and invokes neither the
    continuation nor the cancellation action. *)
Theorem prompt_rejection_propagates w sandbox w1 e :
  state_editor_currentSandbox w = Some sandbox ->
  denied imports requiredPermission sandbox = false ->
  sandbox_isFrozen sandbox = true ->
  state_editor_sessionFrozen w = true ->
  modals_forkFrozenModal_open (actions context) w = (w1, Thrown e) ->
  withOwnedSandbox imports continueAction cancelAction requiredPermission
    context payload (start w)
  = ({| world := w1; trace := [Called Call.modals_forkFrozenModal_open (Thrown e)] |},
     Thrown e).
Proof.
  intros Hsandbox Hdenied Hfrozen Hsession Hmodal.
  unfold withOwnedSandbox. unfold_stmt.
  rewrite Hsandbox; simpl. rewrite Hdenied; simpl. rewrite Hfrozen; simpl.
  rewrite Hsession; simpl. by rewrite Hmodal.
Qed.

(** X11: an answer of the freeze prompt that is none of "fork",
    "unfreeze" and "cancel" falls through: the gate invokes the
    continuation without forking and without clearing [sessionFrozen]. *)
Theorem prompt_other_answer_continues w sandbox w1 answer :
  state_editor_currentSandbox w = Some sandbox ->
  denied imports requiredPermission sandbox = false ->
  sandbox_isFrozen sandbox = true ->
  state_editor_sessionFrozen w = true ->
  modals_forkFrozenModal_open (actions context) w = (w1, Returned answer) ->
  answer <> VStr "fork" -> answer <> VStr "unfreeze" -> answer <> VStr "cancel" ->
  exists w2 o,
    continueAction context payload w1 = (w2, o) /\
    withOwnedSandbox imports continueAction cancelAction requiredPermission
      context payload (start w)
    = ({| world := w2;
          trace := [ Called Call.modals_forkFrozenModal_open (Returned tt);
                     Called (Call.continueAction payload) (ended o) ] |}, o).
Proof.
  intros Hsandbox Hdenied Hfrozen Hsession Hmodal Hfork Hunfreeze Hcancel.
  assert (forall lit, answer <> VStr lit -> strict_eq_str answer lit = false) as Hneq.
  { intros lit Hlit. destruct answer; simpl; try reflexivity.
    apply String.eqb_neq. congruence. }
  destruct (continueAction context payload w1) as [w2 o] eqn:Hcontinue.
  exists w2, o. split; [reflexivity|].
  unfold withOwnedSandbox. unfold_stmt.
  rewrite Hsandbox; simpl. rewrite Hdenied; simpl. rewrite Hfrozen; simpl.
  rewrite Hsession; simpl. rewrite Hmodal; simpl.
  rewrite (Hneq _ Hfork), (Hneq _ Hunfreeze), (Hneq _ Hcancel); simpl.
  rewrite Hcontinue. by destruct o.
Qed.

(** X10: when the freeze prompt resolves with "cancel", the gate invokes
    the cancellation action (the resolved promise when none was given) and
    returns what it returns; the continuation is not invoked. *)
Theorem prompt_cancel_cancels w sandbox w1 :
  state_editor_currentSandbox w = Some sandbox ->
  denied imports requiredPermission sandbox = false ->
  sandbox_isFrozen sandbox = true ->
  state_editor_sessionFrozen w = true ->
  modals_forkFrozenModal_open (actions context) w = (w1, Returned (VStr "cancel")) ->
  exists w2 o,
    default resolved_promise cancelAction context payload w1 = (w2, o) /\
    withOwnedSandbox imports continueAction cancelAction requiredPermission
      context payload (start w)
    = ({| world := w2;
          trace := [ Called Call.modals_forkFrozenModal_open (Returned tt);
                     Called (Call.cancelAction payload) (ended o) ] |}, o).
Proof.
  intros Hsandbox Hdenied Hfrozen Hsession Hmodal.
  destruct (default resolved_promise cancelAction context payload w1)
    as [w2 o] eqn:Hcancel.
  exists w2, o. split; [reflexivity|].
  unfold withOwnedSandbox. unfold_stmt.
  rewrite Hsandbox; simpl. rewrite Hdenied; simpl. rewrite Hfrozen; simpl.
  rewrite Hsession; simpl. rewrite Hmodal; simpl.
  rewrite Hcancel. by destruct o.
Qed.

(** X9: when the freeze prompt resolves with "fork", the gate forks the
    sandbox: if the fork succeeds it goes on to the continuation, if the
    fork fails it returns what the cancellation action returns, as on a
    denial. *)
Theorem prompt_fork_forks w sandbox w1 :
  state_editor_currentSandbox w = Some sandbox ->
  denied imports requiredPermission sandbox = false ->
  sandbox_isFrozen sandbox = true ->
  state_editor_sessionFrozen w = true ->
  modals_forkFrozenModal_open (actions context) w = (w1, Returned (VStr "fork")) ->
  (forall w2,
     editor_internal_forkSandbox (actions context) (sandbox_id sandbox) w1
       = (w2, Returned tt) ->
     exists w3 o,
       continueAction context payload w2 = (w3, o) /\
       withOwnedSandbox imports continueAction cancelAction requiredPermission
         context payload (start w)
       = ({| world := w3;
             trace := [ Called Call.modals_forkFrozenModal_open (Returned tt);
                        Called (Call.editor_internal_forkSandbox (sandbox_id sandbox))
                          (Returned tt);
                        Called (Call.continueAction payload) (ended o) ] |}, o)) /\
  (forall w2 e,
     editor_internal_forkSandbox (actions context) (sandbox_id sandbox) w1
       = (w2, Thrown e) ->
     exists w3 o,
       default resolved_promise cancelAction context payload w2 = (w3, o) /\
       withOwnedSandbox imports continueAction cancelAction requiredPermission
         context payload (start w)
       = ({| world := w3;
             trace := [ Called Call.modals_forkFrozenModal_open (Returned tt);
                        Called (Call.editor_internal_forkSandbox (sandbox_id sandbox))
                          (Thrown e);
                        Called (Call.cancelAction payload) (ended o) ] |}, o)).
Proof.
  intros Hsandbox Hdenied Hfrozen Hsession Hmodal. split.
  - intros w2 Hfork.
    destruct (continueAction context payload w2) as [w3 o] eqn:Hcontinue.
    exists w3, o. split; [reflexivity|].
    unfold withOwnedSandbox. unfold_stmt.
    rewrite Hsandbox; simpl. rewrite Hdenied; simpl. rewrite Hfrozen; simpl.
    rewrite Hsession; simpl. rewrite Hmodal; simpl. rewrite Hfork; simpl.
    rewrite Hcontinue. by destruct o.
  - intros w2 e Hfork.
    destruct (default resolved_promise cancelAction context payload w2)
      as [w3 o] eqn:Hcancel.
    exists w3, o. split; [reflexivity|].
    unfold withOwnedSandbox. unfold_stmt.
    rewrite Hsandbox; simpl. rewrite Hdenied; simpl. rewrite Hfrozen; simpl.
    rewrite Hsession; simpl. rewrite Hmodal; simpl. rewrite Hfork; simpl.
    rewrite Hcancel. by destruct o.
Qed.

(** X13: every invocation of the gate ends in one action at most: when
    the continuation is invoked it is the last step, the gate's outcome is
    its outcome, and the cancellation action is not invoked; when the
    cancellation action is invoked it is the last step and the gate's
    outcome is its outcome; and when neither is invoked, the gate's
    outcome is that of its last call, which either hangs or is the freeze
    prompt rejecting. *)
Theorem gate_ends_in_one_action w m o :
  withOwnedSandbox imports continueAction cancelAction requiredPermission
    context payload (start w) = (m, o) ->
  (forall r,
     In (Called (Call.continueAction payload) r) (trace m) ->
     ended o = r /\
     last (trace m) = Some (Called (Call.continueAction payload) r) /\
     forall r', ~ In (Called (Call.cancelAction payload) r') (trace m)) /\
  (forall r,
     In (Called (Call.cancelAction payload) r) (trace m) ->
     ended o = r /\
     last (trace m) = Some (Called (Call.cancelAction payload) r)) /\
  ((forall r, ~ In (Called (Call.continueAction payload) r) (trace m)) ->
   (forall r, ~ In (Called (Call.cancelAction payload) r) (trace m)) ->
   exists c, last (trace m) = Some (Called c (ended o)) /\
     (o = Hangs \/
      exists e, o = Thrown e /\ c = Call.modals_forkFrozenModal_open)).
Proof.
  unfold withOwnedSandbox. unfold_stmt.
  explore.
  all: intros [= <- <-]; simpl.
  all: split; [intros r Hin; pick Hin|split; [intros r Hin; pick Hin|]].
  all: try (injection Hin as <-; split; [reflexivity|]; split; [reflexivity|];
            intros r' Hin'; pick Hin').
  all: try (injection Hin as <-; split; reflexivity).
  all: intros Hcontinue Hcancel.
  all: try (exfalso; eapply Hcontinue; in_list).
  all: try (exfalso; eapply Hcancel; in_list).
  all: eexists; split; [reflexivity|]; first [by left|right; by eexists].
Qed.

End ownership_gate_further.

(** X7 on a state with no sandbox, a permission being required. *)
Lemma no_sandbox_continues_witness :
  state_editor_currentSandbox (example_world true true None None false true) = None /\
  exists w1 o,
    echo quiet_context (VNum 1) (example_world true true None None false true) = (w1, o) /\
    withOwnedSandbox example_imports echo None (Some "write_code") quiet_context (VNum 1)
      (start (example_world true true None None false true))
    = ({| world := w1; trace := [Called (Call.continueAction (VNum 1)) (ended o)] |}, o).
Proof.
  split; [reflexivity|].
  exact (no_sandbox_continues example_imports echo None (Some "write_code") quiet_context
           (VNum 1) (example_world true true None None false true) eq_refl).
Defined.

(** X8 on a sandbox that is not owned, the fork succeeding. *)
Lemma denied_fork_success_continues_witness :
  state_editor_currentSandbox (editing_world false false false false)
    = Some (example_sandbox false false) /\
  denied example_imports None (example_sandbox false false) = true /\
  state_editor_isForkingSandbox (editing_world false false false false) = false /\
  editor_internal_forkSandbox (actions quiet_context)
    (sandbox_id (example_sandbox false false)) (editing_world false false false false)
    = (editing_world false false false false, Returned tt) /\
  exists w2 o,
    echo quiet_context (VNum 1) (editing_world false false false false) = (w2, o) /\
    withOwnedSandbox example_imports echo None None quiet_context (VNum 1)
      (start (editing_world false false false false))
    = ({| world := w2;
          trace := [ Called (Call.editor_internal_forkSandbox
                               (sandbox_id (example_sandbox false false))) (Returned tt);
                     Called (Call.continueAction (VNum 1)) (ended o) ] |}, o).
Proof.
  split; [reflexivity|]. split; [reflexivity|]. split; [reflexivity|].
  split; [reflexivity|].
  exact (denied_fork_success_continues example_imports echo None None quiet_context
           (VNum 1) (editing_world false false false false) (example_sandbox false false)
           (editing_world false false false false) eq_refl eq_refl eq_refl eq_refl).
Defined.

(** X12 on an owned, frozen sandbox, the prompt being dismissed with an
    error. *)
Lemma prompt_rejection_propagates_witness :
  state_editor_currentSandbox (editing_world true true false true)
    = Some (example_sandbox true true) /\
  denied example_imports None (example_sandbox true true) = false /\
  sandbox_isFrozen (example_sandbox true true) = true /\
  state_editor_sessionFrozen (editing_world true true false true) = true /\
  modals_forkFrozenModal_open (actions dismissed_prompt_context)
    (editing_world true true false true)
    = (editing_world true true false true, Thrown (VError "Dismissed")) /\
  withOwnedSandbox example_imports echo (Some echo) None dismissed_prompt_context (VNum 1)
    (start (editing_world true true false true))
  = ({| world := editing_world true true false true;
        trace := [Called Call.modals_forkFrozenModal_open (Thrown (VError "Dismissed"))] |},
     Thrown (VError "Dismissed")).
Proof.
  split; [reflexivity|]. split; [reflexivity|]. split; [reflexivity|].
  split; [reflexivity|]. split; [reflexivity|].
  exact (prompt_rejection_propagates example_imports echo (Some echo) None
           dismissed_prompt_context (VNum 1) (editing_world true true false true)
           (example_sandbox true true) (editing_world true true false true)
           (VError "Dismissed") eq_refl eq_refl eq_refl eq_refl eq_refl).
Defined.

(** X11 on an owned, frozen sandbox, the prompt resolving with
    [undefined]. *)
Lemma prompt_other_answer_continues_witness :
  state_editor_currentSandbox (editing_world true true false true)
    = Some (example_sandbox true true) /\
  denied example_imports None (example_sandbox true true) = false /\
  sandbox_isFrozen (example_sandbox true true) = true /\
  state_editor_sessionFrozen (editing_world true true false true) = true /\
  modals_forkFrozenModal_open (actions silent_prompt_context)
    (editing_world true true false true)
    = (editing_world true true false true, Returned VUndefined) /\
  VUndefined <> VStr "fork" /\ VUndefined <> VStr "unfreeze" /\
  VUndefined <> VStr "cancel" /\
  exists w2 o,
    echo silent_prompt_context (VNum 1) (editing_world true true false true) = (w2, o) /\
    withOwnedSandbox example_imports echo None None silent_prompt_context (VNum 1)
      (start (editing_world true true false true))
    = ({| world := w2;
          trace := [ Called Call.modals_forkFrozenModal_open (Returned tt);
                     Called (Call.continueAction (VNum 1)) (ended o) ] |}, o).
Proof.
  split; [reflexivity|]. split; [reflexivity|]. split; [reflexivity|].
  split; [reflexivity|]. split; [reflexivity|].
  split; [discriminate|]. split; [discriminate|]. split; [discriminate|].
  apply (prompt_other_answer_continues example_imports echo None None
           silent_prompt_context (VNum 1) (editing_world true true false true)
           (example_sandbox true true) (editing_world true true false true) VUndefined);
    first [reflexivity|discriminate].
Defined.

(** X10 on an owned, frozen sandbox, no cancellation action being
    given. *)
Lemma prompt_cancel_cancels_witness :
  state_editor_currentSandbox (editing_world true true false true)
    = Some (example_sandbox true true) /\
  denied example_imports None (example_sandbox true true) = false /\
  sandbox_isFrozen (example_sandbox true true) = true /\
  state_editor_sessionFrozen (editing_world true true false true) = true /\
  modals_forkFrozenModal_open (actions quiet_context) (editing_world true true false true)
    = (editing_world true true false true, Returned (VStr "cancel")) /\
  exists w2 o,
    default resolved_promise None quiet_context (VNum 1)
      (editing_world true true false true) = (w2, o) /\
    withOwnedSandbox example_imports echo None None quiet_context (VNum 1)
      (start (editing_world true true false true))
    = ({| world := w2;
          trace := [ Called Call.modals_forkFrozenModal_open (Returned tt);
                     Called (Call.cancelAction (VNum 1)) (ended o) ] |}, o).
Proof.
  split; [reflexivity|]. split; [reflexivity|]. split; [reflexivity|].
  split; [reflexivity|]. split; [reflexivity|].
  exact (prompt_cancel_cancels example_imports echo None None quiet_context (VNum 1)
           (editing_world true true false true) (example_sandbox true true)
           (editing_world true true false true) eq_refl eq_refl eq_refl eq_refl eq_refl).
Defined.

(** X9 on an owned, frozen sandbox, the fork succeeding. *)
Lemma prompt_fork_forks_witness :
  state_editor_currentSandbox (editing_world true true false true)
    = Some (example_sandbox true true) /\
  denied example_imports None (example_sandbox true true) = false /\
  sandbox_isFrozen (example_sandbox true true) = true /\
  state_editor_sessionFrozen (editing_world true true false true) = true /\
  modals_forkFrozenModal_open (actions fork_prompt_context)
    (editing_world true true false true)
    = (editing_world true true false true, Returned (VStr "fork")) /\
  editor_internal_forkSandbox (actions fork_prompt_context)
    (sandbox_id (example_sandbox true true)) (editing_world true true false true)
    = (editing_world true true false true, Returned tt) /\
  exists w3 o,
    echo fork_prompt_context (VNum 1) (editing_world true true false true) = (w3, o) /\
    withOwnedSandbox example_imports echo None None fork_prompt_context (VNum 1)
      (start (editing_world true true false true))
    = ({| world := w3;
          trace := [ Called Call.modals_forkFrozenModal_open (Returned tt);
                     Called (Call.editor_internal_forkSandbox
                               (sandbox_id (example_sandbox true true))) (Returned tt);
                     Called (Call.continueAction (VNum 1)) (ended o) ] |}, o).
Proof.
  split; [reflexivity|]. split; [reflexivity|]. split; [reflexivity|].
  split; [reflexivity|]. split; [reflexivity|]. split; [reflexivity|].
  exact (proj1 (prompt_fork_forks example_imports echo None None fork_prompt_context
                  (VNum 1) (editing_world true true false true)
                  (example_sandbox true true) (editing_world true true false true)
                  eq_refl eq_refl eq_refl eq_refl eq_refl)
           (editing_world true true false true) eq_refl).
Defined.

(** X13 on an owned, frozen sandbox, the prompt being answered with
    "cancel". *)
Lemma gate_ends_in_one_action_witness :
  In (Called (Call.cancelAction (VNum 1)) (Returned tt))
    (trace (fst (withOwnedSandbox example_imports echo None None quiet_context (VNum 1)
                   (start (editing_world true true false true))))) /\
  ended (snd (withOwnedSandbox example_imports echo None None quiet_context (VNum 1)
                (start (editing_world true true false true)))) = Returned tt /\
  last (trace (fst (withOwnedSandbox example_imports echo None None quiet_context (VNum 1)
                      (start (editing_world true true false true)))))
  = Some (Called (Call.cancelAction (VNum 1)) (Returned tt)).
Proof.
  assert (In (Called (Call.cancelAction (VNum 1)) (Returned tt))
            (trace (fst (withOwnedSandbox example_imports echo None None quiet_context
                           (VNum 1) (start (editing_world true true false true))))))
    as Hin by (vm_compute; tauto).
  split; [exact Hin|].
  destruct (gate_ends_in_one_action example_imports echo None None quiet_context (VNum 1)
              (editing_world true true false true) _ _ (surjective_pairing _))
    as (_ & Hcancel & _).
  exact (Hcancel _ Hin).
Defined.

(** ** The app-load gate *)

(** *** The two halves of a first invocation *)

Lemma bind_ext {A B : Type} (c : Stmt A) (k1 k2 : A -> Stmt B) (m : Machine) :
  (forall a m1, k1 a m1 = k2 a m1) -> bind c k1 m = bind c k2 m.
Proof. intros Hk. unfold bind. destruct (c m) as [m1 [a|v|e|]]; auto. Qed.

Lemma bind_assoc {A B C : Type} (c : Stmt A) (f : A -> Stmt B) (g : B -> Stmt C)
    (m : Machine) :
  bind (bind c f) g m = bind c (fun a => bind (f a) g) m.
Proof. unfold bind. by destruct (c m) as [m1 [a|v|e|]]. Qed.

(** A first invocation is the bootstrap followed by the conclusion. *)
Lemma withLoadApp_first_invocation imports continueAction context value w :
  state_hasLoadedApp w = false ->
  withLoadApp imports continueAction context value (start w)
  = async_function (bootstrap imports context;; conclude continueAction context value)
      (start w).
Proof.
  intros Hloaded. unfold withLoadApp, async_function.
  match goal with
  | |- match ?l with _ => _ end = match ?r with _ => _ end =>
      assert (l = r) as ->; [|reflexivity]
  end.
  unfold bind at 1, read at 1. simpl. rewrite Hloaded.
  unfold bind at 1. simpl.
  unfold bind at 1, read at 1. simpl. rewrite Hloaded.
  unfold bind at 1. simpl.
  unfold bootstrap.
  repeat (rewrite bind_assoc; apply bind_ext; intros ? ?).
  reflexivity.
Qed.

Section phases.

Variables (imports : Imports) (continueAction : option AsyncAction)
  (context : Context) (value : JSValue).

(** What every run of the bootstrap is like. *)
Lemma bootstrap_runs w m c :
  bootstrap imports context (start w) = (m, c) ->
  (forall v, c <> Return v) /\
  forallb (fun ev => negb (concluding_step ev)) (trace m) = true /\
  head (trace m) = Some (Assigned (set_isAuthenticating true)) /\
  (existsb signed_in_step (trace m) && existsb anonymous_step (trace m) = false) /\
  (forall r,
     In (Called Call.notificationState_addNotification r) (trace m) ->
     forallb (fun ev => negb (signed_in_step ev)) (trace m) = true /\
     exists pre post,
       trace m = (pre ++ [Assigned (expire_cookie "signedIn"); Assigned (set_hasLogIn false);
                          Assigned delete_localStorage_jwt;
                          Called Call.notificationState_addNotification r] ++ post)%list) /\
  (forall e, c = Throw e ->
     exists call, last (trace m) = Some (Called call (Thrown e)) /\
       guarded_call call = false) /\
  (c = Suspended -> exists call, last (trace m) = Some (Called call Hangs)) /\
  ((~ In (Called (Call.browser_storage_get TEAM_ID_LOCAL_STORAGE) (Returned tt)) (trace m) /\
    forallb (fun ev => negb (restores_team ev)) (trace m) = true) \/
   (exists w1 w2 v pre post,
      browser_storage_get (effects context) TEAM_ID_LOCAL_STORAGE w1 = (w2, Returned v) /\
      trace m
      = (pre ++ Called (Call.browser_storage_get TEAM_ID_LOCAL_STORAGE) (Returned tt)
           :: (if truthy v then [Assigned (set_dashboard_activeTeam v)] else [])
           ++ post)%list /\
      forallb (fun ev => negb (restores_team ev)) (pre ++ post) = true)) /\
  (In (Assigned (set_hasLogIn true)) (trace m) ->
   c = Normal tt /\
   Forall (fun call => In (Called call (Returned tt)) (trace m))
     [ Call.api_getCurrentUser; Call.internal_setPatronPrice;
       Call.analytics_identify "signed_in" true;
       Call.browser_storage_get TEAM_ID_LOCAL_STORAGE;
       Call.internal_showUserSurveyIfNeeded; Call.live_getSocket;
       Call.userNotifications_internal_initialize; Call.api_preloadTemplates ] /\
   (exists id email,
      In (Called (Call.analytics_setUserId id email) (Returned tt)) (trace m)) /\
   (exists r, In (Called Call.internal_trackCurrentTeams r) (trace m) /\ r <> Hangs) /\
   existsb reports_error (trace m) = false) /\
  (forall message e r,
     In (Called (Call.internal_handleError message e) r) (trace m) ->
     message = SIGN_IN_TROUBLE /\
     (e = TypeError \/
      exists call, In (Called call (Thrown e)) (trace m) /\
        signed_in_call call = true /\ call <> Call.internal_trackCurrentTeams)).
Proof.
  unfold bootstrap. unfold_stmt.
  explore.
  all: intros [= <- <-]; simpl.
  all: split; [discriminate|]; split; [reflexivity|]; split; [reflexivity|];
    split; [reflexivity|].
  all: split; [intros r Hin; pick Hin;
               (injection Hin as <-; split; [reflexivity|];
                match goal with
                | |- exists pre post, ?tr = _ =>
                    let rec go tr pre :=
                      lazymatch tr with
                      | Assigned (expire_cookie _) :: _ :: _ :: Called _ _ :: ?post =>
                          exists pre, post
                      | ?x :: ?rest => go rest constr:((pre ++ [x])%list)
                      end in go tr (@nil Event)
                end; reflexivity)|].
  all: split; [intros thrown Hc;
               first [discriminate Hc
                     |injection Hc as <-; eexists; split; reflexivity]|].
  all: split; [intros Hc;
               first [discriminate Hc|eexists; reflexivity]|].
  all: split; [first
                 [ match goal with
                   | H : browser_storage_get _ _ ?w1 = (?w2, Returned ?v),
                     Ht : truthy ?v = _ |- _ =>
                       right; exists w1, w2, v; rewrite Ht;
                       match goal with
                       | |- exists pre post, _ /\ ?tr = _ /\ _ =>
                           split_read tr (@nil Event)
                       end;
                       split; [exact H|split; reflexivity]
                   end
                 | left; split; [intros Hin; pick Hin|reflexivity] ]|].
  all: split; [intros Hin; pick Hin;
               (split; [reflexivity|];
                split; [repeat (apply List.Forall_cons; [in_list|]); apply List.Forall_nil|];
                split; [eexists _, _; in_list|];
                split; [eexists; split; [in_list|discriminate]|reflexivity])|].
  all: intros message thrown r Hin; pick Hin;
               (injection Hin as <- <- <-; split; [reflexivity|];
                first [left; reflexivity
                      |right; eexists; split; [in_list|split; [reflexivity|discriminate]]]).
Qed.

(** What every run of the conclusion is like, from any machine. *)
Lemma conclude_runs m1 m c :
  conclude continueAction context value m1 = (m, c) ->
  exists rest,
    trace m = (trace m1 ++ rest)%list /\
    (forall v, c <> Return v) /\
    forallb concluding_step rest = true /\
    (In (Assigned (set_hasLoadedApp true)) rest ->
     exists r, In (Called (Call.http_get CONTRIBUTORS_URL) r) rest /\
       c = match r with Hangs => Suspended | _ => Normal tt end) /\
    (forall logins, In (Assigned (set_contributors logins)) rest ->
       c = Normal tt /\
       state_contributors (world m) = logins /\
       last rest = Some (Assigned (set_contributors logins)) /\
       In (Called (Call.http_get CONTRIBUTORS_URL) (Returned tt)) rest) /\
    (forall e, c = Throw e -> rest = [Called (Call.continueAction value) (Thrown e)]) /\
    (c = Suspended -> exists call, last rest = Some (Called call Hangs)) /\
    (c = Normal tt ->
     In (Assigned (set_hasLoadedApp true)) rest /\
     (keeps_flags (http_get (effects context) CONTRIBUTORS_URL) ->
      state_hasLoadedApp (world m) = true /\
      state_isAuthenticating (world m) = false)).
Proof.
  unfold conclude. unfold_stmt.
  explore.
  all: intros [= <- <-]; simpl.
  all: rewrite <- ?List.app_assoc; simpl.
  all: eexists; split; [reflexivity|].
  all: split; [discriminate|]; split; [reflexivity|].
  all: split; [intros Hin; pick Hin; (eexists; split; [in_list|reflexivity])|].
  all: split; [intros logins Hin; pick Hin;
               (injection Hin as <-; split; [reflexivity|]; split; [reflexivity|];
                split; [reflexivity|in_list])|].
  all: split; [intros thrown Hc;
               first [discriminate Hc|injection Hc as <-; reflexivity]|].
  all: split; [intros Hc; first [discriminate Hc|eexists; reflexivity]|].
  all: intros Hc; try discriminate Hc.
  all: split; [in_list|intros Hkeeps].
  all: match goal with
       | H : http_get _ _ ?w0 = (_, _) |- _ =>
           destruct (Hkeeps w0) as [K1 K2]; rewrite H in K1, K2; simpl in K1, K2
       end.
  all: simpl; split; assumption.
Qed.

End phases.

Lemma concluding_step_apart (ev : Event) :
  concluding_step ev = true ->
  signed_in_step ev = false /\ anonymous_step ev = false /\
  reports_error ev = false.
Proof.
  destruct ev as [c r|a]; [destruct c|destruct a]; simpl; intros H;
    try discriminate H; repeat match goal with b : bool |- _ => destruct b end;
    try discriminate H; auto.
Qed.

Lemma concluding_step_keeps_team (ev : Event) :
  concluding_step ev = true -> restores_team ev = false.
Proof.
  destruct ev as [c r|a]; [done|]. by destruct a.
Qed.

Section app_load_gate_further.

Variables (imports : Imports) (continueAction : option AsyncAction)
  (context : Context) (value : JSValue).

Lemma first_invocation_split w m o :
  state_hasLoadedApp w = false ->
  withLoadApp imports continueAction context value (start w) = (m, o) ->
  exists m1 c1,
    bootstrap imports context (start w) = (m1, c1) /\
    ((c1 = Normal tt /\
      exists c2, conclude continueAction context value m1 = (m, c2) /\ o = settled c2) \/
     (c1 <> Normal tt /\ m = m1 /\ o = settled c1)).
Proof.
  intros Hloaded. rewrite withLoadApp_first_invocation by done.
  unfold async_function, bind.
  destruct (bootstrap imports context (start w)) as [m1 c1].
  intros Hrun. exists m1, c1. split; [reflexivity|].
  destruct c1 as [[]|v|e|].
  - left. split; [reflexivity|].
    destruct (conclude continueAction context value m1) as [m2 c2].
    exists c2. by destruct c2; injection Hrun as <- <-.
  - right. by injection Hrun as <- <-.
  - right. by injection Hrun as <- <-.
  - right. by injection Hrun as <- <-.
Qed.

(** The trace of a first invocation: what the bootstrap did, then what
    the conclusion did. *)
Lemma first_invocation_trace w m o :
  state_hasLoadedApp w = false ->
  withLoadApp imports continueAction context value (start w) = (m, o) ->
  exists m1 c1 rest,
    bootstrap imports context (start w) = (m1, c1) /\
    trace m = (trace m1 ++ rest)%list /\
    forallb concluding_step rest = true /\
    ((c1 = Normal tt /\
      exists c2, conclude continueAction context value m1 = (m, c2) /\ o = settled c2) \/
     (c1 <> Normal tt /\ rest = [] /\ m = m1 /\ o = settled c1)).
Proof.
  intros Hloaded Hrun.
  destruct (first_invocation_split w m o Hloaded Hrun)
    as (m1 & c1 & Hboot & [[-> (c2 & Hconclude & ->)]|(Hc1 & -> & ->)]).
  - destruct (conclude_runs continueAction context value _ _ _ Hconclude)
      as (rest & Htrace & _ & Hrest & _).
    exists m1, (Normal tt), rest. repeat split; try done. left. split; [done|by eexists].
  - exists m1, c1, []. rewrite app_nil_r. repeat split; try done. by right.
Qed.

Lemma in_bootstrap_trace (ev : Event) (pre rest : list Event) :
  forallb concluding_step rest = true ->
  concluding_step ev = false ->
  In ev (pre ++ rest) -> In ev pre.
Proof.
  intros Hrest Hev Hin. apply in_app_or in Hin as [Hin|Hin]; [done|].
  rewrite forallb_forall in Hrest. apply Hrest in Hin. congruence.
Qed.

Lemma in_conclusion_trace (ev : Event) (pre rest : list Event) :
  forallb (fun ev => negb (concluding_step ev)) pre = true ->
  concluding_step ev = true ->
  In ev (pre ++ rest) -> In ev rest.
Proof.
  intros Hpre Hev Hin. apply in_app_or in Hin as [Hin|Hin]; [|done].
  rewrite forallb_forall in Hpre. apply Hpre in Hin. rewrite Hev in Hin. done.
Qed.

(** X14: the two branches of the identification exclude each other: a
    first invocation that takes a step of the logged-in branch neither
    identifies the visitor as anonymous nor asks for an anonymous id. *)
Theorem login_and_anonymous_branches_exclusive w m o ev :
  state_hasLoadedApp w = false ->
  withLoadApp imports continueAction context value (start w) = (m, o) ->
  In ev (trace m) -> signed_in_step ev = true ->
  forallb (fun ev' => negb (anonymous_step ev')) (trace m) = true.
Proof.
  intros Hloaded Hrun Hev Hsigned.
  destruct (first_invocation_trace w m o Hloaded Hrun)
    as (m1 & c1 & rest & Hboot & Htrace & Hrest & _).
  destruct (bootstrap_runs imports context w m1 c1 Hboot)
    as (_ & _ & _ & Hexclusive & _).
  rewrite Htrace in Hev.
  apply in_bootstrap_trace in Hev; [|done|].
  2: { destruct (concluding_step ev) eqn:Hc; [|done].
       apply concluding_step_apart in Hc as (Hc & _). congruence. }
  assert (existsb signed_in_step (trace m1) = true) as Hsome
    by (apply existsb_exists; by exists ev).
  rewrite Hsome in Hexclusive. simpl in Hexclusive.
  rewrite Htrace. apply forallb_forall. intros ev' Hev'.
  apply in_app_or in Hev' as [Hev'|Hev'].
  - destruct (anonymous_step ev') eqn:Hanonymous; [|done].
    assert (existsb anonymous_step (trace m1) = true) as Hany
      by (apply existsb_exists; by exists ev').
    congruence.
  - rewrite forallb_forall in Hrest. apply Hrest in Hev'.
    apply concluding_step_apart in Hev' as (_ & -> & _). done.
Qed.

(** X15: whenever the session-expired notification is raised, the
    cookie has been expired, [hasLogIn] set to false and the legacy token
    deleted just before it, in that order, and the invocation takes no
    step of the logged-in branch, whether the notification returns or
    not. *)
Theorem session_expired_notice_excludes_login w m o r :
  state_hasLoadedApp w = false ->
  withLoadApp imports continueAction context value (start w) = (m, o) ->
  In (Called Call.notificationState_addNotification r) (trace m) ->
  forallb (fun ev => negb (signed_in_step ev)) (trace m) = true /\
  exists pre post,
    trace m
    = (pre ++ [ Assigned (expire_cookie "signedIn"); Assigned (set_hasLogIn false);
                Assigned delete_localStorage_jwt;
                Called Call.notificationState_addNotification r ] ++ post)%list.
Proof.
  intros Hloaded Hrun Hin.
  destruct (first_invocation_trace w m o Hloaded Hrun)
    as (m1 & c1 & rest & Hboot & Htrace & Hrest & _).
  destruct (bootstrap_runs imports context w m1 c1 Hboot)
    as (_ & _ & _ & _ & Hmigration & _).
  rewrite Htrace in Hin. apply in_bootstrap_trace in Hin; [|done..].
  destruct (Hmigration r Hin) as (Hnone & pre & post & Hpre).
  rewrite Htrace. split.
  - rewrite forallb_app, Hnone. simpl.
    apply forallb_forall. intros ev Hev.
    rewrite forallb_forall in Hrest. apply Hrest in Hev.
    apply concluding_step_apart in Hev as (-> & _). done.
  - exists pre, (post ++ rest)%list. rewrite Hpre.
    rewrite <- !List.app_assoc. reflexivity.
Qed.

(** X20: once [hasLoadedApp] has been assigned the invocation cannot be
    rejected any more: the contributors are fetched, and the invocation
    returns [undefined] whether the fetch succeeds or fails; it hangs only
    if the fetch does. *)
Theorem loaded_invocation_cannot_fail w m o :
  state_hasLoadedApp w = false ->
  withLoadApp imports continueAction context value (start w) = (m, o) ->
  In (Assigned (set_hasLoadedApp true)) (trace m) ->
  exists r,
    In (Called (Call.http_get CONTRIBUTORS_URL) r) (trace m) /\
    o = match r with Hangs => Hangs | _ => Returned VUndefined end.
Proof.
  intros Hloaded Hrun Hin.
  destruct (first_invocation_trace w m o Hloaded Hrun)
    as (m1 & c1 & rest & Hboot & Htrace & Hrest & Hphases).
  destruct (bootstrap_runs imports context w m1 c1 Hboot) as (_ & Hpre & _).
  rewrite Htrace in Hin. apply in_conclusion_trace in Hin; [|done..].
  destruct Hphases as [(_ & c2 & Hconclude & ->)|(_ & -> & _)]; [|destruct Hin].
  destruct (conclude_runs continueAction context value _ _ _ Hconclude)
    as (rest' & Htrace' & _ & _ & Hfetch & _).
  assert (rest' = rest) as -> by (rewrite Htrace in Htrace'; by eapply app_inv_head).
  destruct (Hfetch Hin) as (r & Hr & ->).
  exists r. split; [rewrite Htrace; apply in_or_app; by right|by destruct r].
Qed.


(** X21: when [state.contributors] is assigned, that is the last step of
    the invocation, which returns [undefined]: the fetch has returned, and
    the final state holds the logins assigned. *)
Theorem contributors_are_the_fetched_logins w m o logins :
  state_hasLoadedApp w = false ->
  withLoadApp imports continueAction context value (start w) = (m, o) ->
  In (Assigned (set_contributors logins)) (trace m) ->
  state_contributors (world m) = logins /\
  last (trace m) = Some (Assigned (set_contributors logins)) /\
  In (Called (Call.http_get CONTRIBUTORS_URL) (Returned tt)) (trace m) /\
  o = Returned VUndefined.
Proof.
  intros Hloaded Hrun Hin.
  destruct (first_invocation_trace w m o Hloaded Hrun)
    as (m1 & c1 & rest & Hboot & Htrace & Hrest & Hphases).
  destruct (bootstrap_runs imports context w m1 c1 Hboot) as (_ & Hpre & _).
  rewrite Htrace in Hin. apply in_conclusion_trace in Hin; [|done..].
  destruct Hphases as [(_ & c2 & Hconclude & ->)|(_ & -> & _)]; [|destruct Hin].
  destruct (conclude_runs continueAction context value _ _ _ Hconclude)
    as (rest' & Htrace' & _ & Hconcluding & Hfetch & Hcontributors & _).
  assert (rest' = rest) as -> by (rewrite Htrace in Htrace'; by eapply app_inv_head).
  destruct (Hcontributors logins Hin) as (-> & Hstate & Hlast & Hfetched).
  split; [done|]. split; [rewrite Htrace; apply last_app_Some; by left|].
  split; [rewrite Htrace; apply in_or_app; by right|done].
Qed.

(** X19: a first invocation that is rejected has entered the bootstrap
    window and never left it: its first step set [isAuthenticating] to
    true, it assigned neither [hasLoadedApp] nor [isAuthenticating] again,
    and the error is the one thrown by its last call, a call made outside
    the [try] blocks. *)
Theorem rejected_invocation_stays_authenticating w m e :
  state_hasLoadedApp w = false ->
  withLoadApp imports continueAction context value (start w) = (m, Thrown e) ->
  head (trace m) = Some (Assigned (set_isAuthenticating true)) /\
  ~ In (Assigned (set_hasLoadedApp true)) (trace m) /\
  ~ In (Assigned (set_isAuthenticating false)) (trace m) /\
  exists call,
    last (trace m) = Some (Called call (Thrown e)) /\ guarded_call call = false.
Proof.
  intros Hloaded Hrun.
  destruct (first_invocation_trace w m _ Hloaded Hrun)
    as (m1 & c1 & rest & Hboot & Htrace & Hrest & Hphases).
  destruct (bootstrap_runs imports context w m1 c1 Hboot)
    as (Hreturn & Hpre & Hhead & _ & _ & Hthrown & _).
  assert (forall ev, concluding_step ev = true -> In ev (trace m1) -> False) as Hnone.
  { intros ev Hev Hin. rewrite forallb_forall in Hpre. apply Hpre in Hin.
    by rewrite Hev in Hin. }
  destruct Hphases as [(_ & c2 & Hconclude & Ho)|(_ & -> & -> & Ho)].
  - destruct (conclude_runs continueAction context value _ _ _ Hconclude)
      as (rest' & Htrace' & _ & _ & _ & _ & Hfailed & _).
    assert (rest' = rest) as -> by (rewrite Htrace in Htrace'; by eapply app_inv_head).
    assert (c2 = Throw e) as ->
      by (destruct c2 as [[]|v|e'|]; try discriminate Ho; by injection Ho as ->).
    pose proof (Hfailed e eq_refl) as ->. rewrite Htrace.
    split; [apply head_app_Some; by left|].
    split; [intros Hin; apply in_app_or in Hin as [Hin|[Hin|[]]];
            [by eapply Hnone; [|exact Hin]|discriminate Hin]|].
    split; [intros Hin; apply in_app_or in Hin as [Hin|[Hin|[]]];
            [by eapply Hnone; [|exact Hin]|discriminate Hin]|].
    exists (Call.continueAction value). split; [by rewrite last_snoc|done].
  - clear Htrace.
    assert (c1 = Throw e) as ->.
    { destruct c1 as [[]|v|e'|]; try discriminate Ho. by injection Ho as ->. }
    split; [done|].
    split; [intros Hin; by eapply Hnone; [|exact Hin]|].
    split; [intros Hin; by eapply Hnone; [|exact Hin]|].
    by apply Hthrown.
Qed.

(** X18: the gate restores the active team from the browser's storage
    and from nowhere else.  Either the read of the stored team id has
    not returned in this invocation, and the gate makes no assignment to
    [dashboard.activeTeam]; or it has returned some value [v], and then
    the gate assigns [v] to [dashboard.activeTeam] right after the read
    when [v] is truthy, makes no assignment after the read when [v] is
    falsy (a missing id), and makes no other assignment to the active
    team in either case. *)
Theorem activeTeam_restored_only_if_truthy w m o :
  state_hasLoadedApp w = false ->
  withLoadApp imports continueAction context value (start w) = (m, o) ->
  (~ In (Called (Call.browser_storage_get TEAM_ID_LOCAL_STORAGE) (Returned tt)) (trace m) /\
   forallb (fun ev => negb (restores_team ev)) (trace m) = true) \/
  (exists w1 w2 v pre post,
     browser_storage_get (effects context) TEAM_ID_LOCAL_STORAGE w1 = (w2, Returned v) /\
     trace m
     = (pre ++ Called (Call.browser_storage_get TEAM_ID_LOCAL_STORAGE) (Returned tt)
          :: (if truthy v then [Assigned (set_dashboard_activeTeam v)] else [])
          ++ post)%list /\
     forallb (fun ev => negb (restores_team ev)) (pre ++ post) = true).
Proof.
  intros Hloaded Hrun.
  destruct (first_invocation_trace w m o Hloaded Hrun)
    as (m1 & c1 & rest & Hboot & Htrace & Hrest & _).
  destruct (bootstrap_runs imports context w m1 c1 Hboot)
    as (_ & _ & _ & _ & _ & _ & _ & Hteam & _).
  assert (forallb (fun ev => negb (restores_team ev)) rest = true) as Hrest'.
  { apply forallb_forall. intros ev Hev.
    rewrite forallb_forall in Hrest. apply Hrest in Hev.
    by apply concluding_step_keeps_team in Hev as ->. }
  rewrite Htrace.
  destruct Hteam as [[Hunread Hnone]|(w1 & w2 & v & pre & post & Hread & Hpre & Hclean)].
  - left. split.
    + intros Hin. apply in_bootstrap_trace in Hin; [|done..]. by apply Hunread.
    + by rewrite forallb_app, Hnone, Hrest'.
  - right. exists w1, w2, v, pre, (post ++ rest)%list.
    split; [exact Hread|]. split.
    + rewrite Hpre. rewrite <- !List.app_assoc. simpl.
      by rewrite <- !List.app_assoc.
    + rewrite forallb_app in Hclean. apply andb_prop in Hclean as [Hclean1 Hclean2].
      by rewrite !forallb_app, Hclean1, Hclean2, Hrest'.
Qed.

(** X16: [hasLogIn] is confirmed only at the end of the whole logged-in
    sequence: by then the profile fetch, the patron price, the analytics
    identification, the storage read, the survey trigger, the socket, the
    user notifications and the template preload have all returned, a user
    id has been set, team tracking has been called (it may have thrown),
    and the error handler has not been called. *)
Theorem login_confirmed_after_whole_sequence w m o :
  state_hasLoadedApp w = false ->
  withLoadApp imports continueAction context value (start w) = (m, o) ->
  In (Assigned (set_hasLogIn true)) (trace m) ->
  Forall (fun call => In (Called call (Returned tt)) (trace m))
    [ Call.api_getCurrentUser; Call.internal_setPatronPrice;
      Call.analytics_identify "signed_in" true;
      Call.browser_storage_get TEAM_ID_LOCAL_STORAGE;
      Call.internal_showUserSurveyIfNeeded; Call.live_getSocket;
      Call.userNotifications_internal_initialize; Call.api_preloadTemplates ] /\
  (exists id email,
     In (Called (Call.analytics_setUserId id email) (Returned tt)) (trace m)) /\
  (exists r, In (Called Call.internal_trackCurrentTeams r) (trace m) /\ r <> Hangs) /\
  (forall message e r,
     ~ In (Called (Call.internal_handleError message e) r) (trace m)).
Proof.
  intros Hloaded Hrun Hin.
  destruct (first_invocation_trace w m o Hloaded Hrun)
    as (m1 & c1 & rest & Hboot & Htrace & Hrest & _).
  destruct (bootstrap_runs imports context w m1 c1 Hboot)
    as (_ & _ & _ & _ & _ & _ & _ & _ & Hconfirmed & _).
  rewrite Htrace in Hin. apply in_bootstrap_trace in Hin; [|done..].
  destruct (Hconfirmed Hin) as (_ & Hcalls & (id & email & Huser) & (r & Htrack & Hr) & Hquiet).
  rewrite Htrace. split; [|split; [|split]].
  - eapply List.Forall_impl; [|exact Hcalls].
    intros call Hcall. apply in_or_app. by left.
  - exists id, email. apply in_or_app. by left.
  - exists r. split; [apply in_or_app; by left|done].
  - intros message e r' Hreported.
    apply in_bootstrap_trace in Hreported; [|done..].
    assert (existsb reports_error (trace m1) = true) as Hsome
      by (apply existsb_exists; eexists; split; [exact Hreported|reflexivity]).
    congruence.
Qed.

(** X17: the error handler is only ever called with the fixed message,
    and with an error that a step of the logged-in sequence other than
    team tracking threw, or with the [TypeError] of a missing
    [state.user]; an invocation that reports an error does not confirm
    [hasLogIn]. *)
Theorem reported_error_comes_from_login_sequence w m o message e r :
  state_hasLoadedApp w = false ->
  withLoadApp imports continueAction context value (start w) = (m, o) ->
  In (Called (Call.internal_handleError message e) r) (trace m) ->
  message = SIGN_IN_TROUBLE /\
  (e = TypeError \/
   exists call,
     In (Called call (Thrown e)) (trace m) /\
     signed_in_call call = true /\ call <> Call.internal_trackCurrentTeams) /\
  ~ In (Assigned (set_hasLogIn true)) (trace m).
Proof.
  intros Hloaded Hrun Hin.
  destruct (first_invocation_trace w m o Hloaded Hrun)
    as (m1 & c1 & rest & Hboot & Htrace & Hrest & _).
  destruct (bootstrap_runs imports context w m1 c1 Hboot)
    as (_ & _ & _ & _ & _ & _ & _ & _ & Hconfirmed & Hreported).
  rewrite Htrace in Hin. apply in_bootstrap_trace in Hin; [|done..].
  destruct (Hreported message e r Hin) as (-> & Horigin).
  split; [done|]. rewrite Htrace. split.
  - destruct Horigin as [->|(call & Hcall & Hsigned & Hnot)]; [by left|].
    right. exists call. split; [apply in_or_app; by left|done].
  - intros Hlogin. apply in_bootstrap_trace in Hlogin; [|done..].
    destruct (Hconfirmed Hlogin) as (_ & _ & _ & _ & Hquiet).
    assert (existsb reports_error (trace m1) = true) as Hsome
      by (apply existsb_exists; eexists; split; [exact Hin|reflexivity]).
    congruence.
Qed.

End app_load_gate_further.

(** X22: the bootstrap runs once: after a first invocation that
    returned (its contributor fetch having left the two flags alone), a
    next invocation, on the state the first one left, with any
    continuation, context and payload, makes no step of its own but the
    call of its continuation. *)
Theorem second_invocation_only_continues imports continueAction context value w m v
    imports' continueAction' context' value' :
  state_hasLoadedApp w = false ->
  withLoadApp imports continueAction context value (start w) = (m, Returned v) ->
  keeps_flags (http_get (effects context) CONTRIBUTORS_URL) ->
  v = VUndefined /\
  withLoadApp imports' continueAction' context' value' (start (world m))
  = match continueAction' with
    | Some continueAction' =>
        let '(w1, o) := continueAction' context' value' (world m) in
        ({| world := w1; trace := [Called (Call.continueAction value') (ended o)] |},
         discard o)
    | None => (start (world m), Returned VUndefined)
    end.
Proof.
  intros Hloaded Hrun Hkeeps.
  destruct (first_invocation_trace _ _ _ _ w m _ Hloaded Hrun)
    as (m1 & c1 & rest & Hboot & Htrace & Hrest & Hphases).
  destruct (bootstrap_runs imports context w m1 c1 Hboot) as (Hreturn & _).
  destruct Hphases as [(_ & c2 & Hconclude & Ho)|(Hc1 & _ & _ & Ho)].
  - destruct (conclude_runs continueAction context value _ _ _ Hconclude)
      as (rest' & _ & Hreturn' & _ & _ & _ & _ & _ & Hdone).
    assert (c2 = Normal tt /\ v = VUndefined) as [-> ->].
    { destruct c2 as [[]|v'|e'|]; try discriminate Ho; [by injection Ho as ->|].
      by destruct (Hreturn' v'). }
    destruct (Hdone eq_refl) as [_ Hflags]. destruct (Hflags Hkeeps) as [Hloaded' _].
    split; [done|].
    unfold withLoadApp. unfold_stmt. rewrite Hloaded'; simpl.
    destruct continueAction' as [k|]; simpl.
    + by destruct (k context' value' (world m)) as [w1 [a|e|]].
    + by rewrite Hloaded'.
  - destruct c1 as [[]|v'|e'|]; try discriminate Ho; [done|].
    by destruct (Hreturn v').
Qed.

(** X14 on the first invocation of a signed-in visitor. *)
Lemma login_and_anonymous_branches_exclusive_witness :
  state_hasLoadedApp (fresh_world true None) = false /\
  In (Called Call.api_getCurrentUser (Returned tt)) (trace (fst signed_in_run)) /\
  signed_in_step (Called Call.api_getCurrentUser (Returned tt)) = true /\
  forallb (fun ev' => negb (anonymous_step ev')) (trace (fst signed_in_run)) = true.
Proof.
  assert (In (Called Call.api_getCurrentUser (Returned tt)) (trace (fst signed_in_run)))
    as Hin by (vm_compute; tauto).
  split; [reflexivity|]. split; [exact Hin|]. split; [reflexivity|].
  exact (login_and_anonymous_branches_exclusive example_imports (Some echo) team_context
           (VNum 1) (fresh_world true None) _ _ _
           eq_refl (surjective_pairing _) Hin eq_refl).
Defined.

(** X15 on the first invocation of a visitor with a legacy token. *)
Lemma session_expired_notice_excludes_login_witness :
  state_hasLoadedApp (fresh_world true (Some "legacy-token")) = false /\
  In (Called Call.notificationState_addNotification (Returned tt))
    (trace (fst legacy_run)) /\
  forallb (fun ev => negb (signed_in_step ev)) (trace (fst legacy_run)) = true /\
  exists pre post,
    trace (fst legacy_run)
    = (pre ++ [ Assigned (expire_cookie "signedIn"); Assigned (set_hasLogIn false);
                Assigned delete_localStorage_jwt;
                Called Call.notificationState_addNotification (Returned tt) ]
           ++ post)%list.
Proof.
  assert (In (Called Call.notificationState_addNotification (Returned tt))
            (trace (fst legacy_run))) as Hin by (vm_compute; tauto).
  split; [reflexivity|]. split; [exact Hin|].
  exact (session_expired_notice_excludes_login example_imports (Some echo) quiet_context
           (VNum 1) (fresh_world true (Some "legacy-token")) _ _ _
           eq_refl (surjective_pairing _) Hin).
Defined.

(** X20 on a first invocation in which the profile cannot be fetched. *)
Lemma loaded_invocation_cannot_fail_witness :
  state_hasLoadedApp (fresh_world true None) = false /\
  In (Assigned (set_hasLoadedApp true)) (trace (fst offline_run)) /\
  exists r,
    In (Called (Call.http_get CONTRIBUTORS_URL) r) (trace (fst offline_run)) /\
    snd offline_run = match r with Hangs => Hangs | _ => Returned VUndefined end.
Proof.
  assert (In (Assigned (set_hasLoadedApp true)) (trace (fst offline_run))) as Hin
    by (vm_compute; tauto).
  split; [reflexivity|]. split; [exact Hin|].
  exact (loaded_invocation_cannot_fail example_imports None offline_context VUndefined
           (fresh_world true None) _ _
           eq_refl (surjective_pairing _) Hin).
Defined.

(** X21 on the first invocation of a signed-in visitor. *)
Lemma contributors_are_the_fetched_logins_witness :
  state_hasLoadedApp (fresh_world true None) = false /\
  In (Assigned (set_contributors ["alice"])) (trace (fst signed_in_run)) /\
  state_contributors (world (fst signed_in_run)) = ["alice"] /\
  last (trace (fst signed_in_run)) = Some (Assigned (set_contributors ["alice"])) /\
  In (Called (Call.http_get CONTRIBUTORS_URL) (Returned tt)) (trace (fst signed_in_run)) /\
  snd signed_in_run = Returned VUndefined.
Proof.
  assert (In (Assigned (set_contributors ["alice"])) (trace (fst signed_in_run))) as Hin
    by (vm_compute; tauto).
  split; [reflexivity|]. split; [exact Hin|].
  exact (contributors_are_the_fetched_logins example_imports (Some echo) team_context
           (VNum 1) (fresh_world true None) _ _ _
           eq_refl (surjective_pairing _) Hin).
Defined.

(** X19 on a first invocation whose continuation rejects. *)
Lemma rejected_invocation_stays_authenticating_witness :
  state_hasLoadedApp (fresh_world false None) = false /\
  rejected_run = (fst rejected_run, Thrown (VError "Error")) /\
  head (trace (fst rejected_run)) = Some (Assigned (set_isAuthenticating true)) /\
  ~ In (Assigned (set_hasLoadedApp true)) (trace (fst rejected_run)) /\
  ~ In (Assigned (set_isAuthenticating false)) (trace (fst rejected_run)) /\
  exists call,
    last (trace (fst rejected_run)) = Some (Called call (Thrown (VError "Error"))) /\
    guarded_call call = false.
Proof.
  assert (rejected_run = (fst rejected_run, Thrown (VError "Error"))) as Hrun
    by (vm_compute; reflexivity).
  split; [reflexivity|]. split; [exact Hrun|].
  exact (rejected_invocation_stays_authenticating example_imports (Some failing)
           quiet_context (VNum 1) (fresh_world false None) _ _ eq_refl Hrun).
Defined.

(** X18 on a first invocation that finds a team id in the storage. *)
Lemma activeTeam_restored_only_if_truthy_witness :
  state_hasLoadedApp (fresh_world true None) = false /\
  exists w1 w2 v pre post,
    browser_storage_get (effects team_context) TEAM_ID_LOCAL_STORAGE w1 = (w2, Returned v) /\
    trace (fst signed_in_run)
    = (pre ++ Called (Call.browser_storage_get TEAM_ID_LOCAL_STORAGE) (Returned tt)
         :: (if truthy v then [Assigned (set_dashboard_activeTeam v)] else [])
         ++ post)%list /\
    forallb (fun ev => negb (restores_team ev)) (pre ++ post) = true.
Proof.
  assert (In (Called (Call.browser_storage_get TEAM_ID_LOCAL_STORAGE) (Returned tt))
            (trace (fst signed_in_run))) as Hin by (vm_compute; tauto).
  split; [reflexivity|].
  destruct (activeTeam_restored_only_if_truthy example_imports (Some echo) team_context
              (VNum 1) (fresh_world true None) _ _
              eq_refl (surjective_pairing _)) as [[Hunread _]|Hrestored].
  - destruct (Hunread Hin).
  - exact Hrestored.
Defined.

(** X16 on the first invocation of a signed-in visitor. *)
Lemma login_confirmed_after_whole_sequence_witness :
  state_hasLoadedApp (fresh_world true None) = false /\
  In (Assigned (set_hasLogIn true)) (trace (fst signed_in_run)) /\
  Forall (fun call => In (Called call (Returned tt)) (trace (fst signed_in_run)))
    [ Call.api_getCurrentUser; Call.internal_setPatronPrice;
      Call.analytics_identify "signed_in" true;
      Call.browser_storage_get TEAM_ID_LOCAL_STORAGE;
      Call.internal_showUserSurveyIfNeeded; Call.live_getSocket;
      Call.userNotifications_internal_initialize; Call.api_preloadTemplates ] /\
  (exists id email,
     In (Called (Call.analytics_setUserId id email) (Returned tt))
       (trace (fst signed_in_run))) /\
  (exists r,
     In (Called Call.internal_trackCurrentTeams r) (trace (fst signed_in_run)) /\
     r <> Hangs) /\
  (forall message e r,
     ~ In (Called (Call.internal_handleError message e) r) (trace (fst signed_in_run))).
Proof.
  assert (In (Assigned (set_hasLogIn true)) (trace (fst signed_in_run))) as Hin
    by (vm_compute; tauto).
  split; [reflexivity|]. split; [exact Hin|].
  exact (login_confirmed_after_whole_sequence example_imports (Some echo) team_context
           (VNum 1) (fresh_world true None) _ _
           eq_refl (surjective_pairing _) Hin).
Defined.

(** X17 on a first invocation in which the profile cannot be fetched. *)
Lemma reported_error_comes_from_login_sequence_witness :
  state_hasLoadedApp (fresh_world true None) = false /\
  In (Called (Call.internal_handleError SIGN_IN_TROUBLE (VError "NetworkError"))
        (Returned tt)) (trace (fst offline_run)) /\
  (VError "NetworkError" = TypeError \/
   exists call,
     In (Called call (Thrown (VError "NetworkError"))) (trace (fst offline_run)) /\
     signed_in_call call = true /\ call <> Call.internal_trackCurrentTeams) /\
  ~ In (Assigned (set_hasLogIn true)) (trace (fst offline_run)).
Proof.
  assert (In (Called (Call.internal_handleError SIGN_IN_TROUBLE (VError "NetworkError"))
                (Returned tt)) (trace (fst offline_run))) as Hin
    by (vm_compute; tauto).
  split; [reflexivity|]. split; [exact Hin|].
  exact (proj2 (reported_error_comes_from_login_sequence example_imports None
                  offline_context VUndefined (fresh_world true None) _ _ _ _ _
                  eq_refl (surjective_pairing _) Hin)).
Defined.

(** X22 on the first invocation of a signed-in visitor and a second one. *)
Lemma second_invocation_only_continues_witness :
  state_hasLoadedApp (fresh_world true None) = false /\
  signed_in_run = (fst signed_in_run, Returned VUndefined) /\
  keeps_flags (http_get (effects team_context) CONTRIBUTORS_URL) /\
  withLoadApp example_imports (Some echo) quiet_context (VNum 2)
    (start (world (fst signed_in_run)))
  = ({| world := world (fst signed_in_run);
        trace := [Called (Call.continueAction (VNum 2)) (Returned tt)] |},
     Returned VUndefined).
Proof.
  assert (signed_in_run = (fst signed_in_run, Returned VUndefined)) as Hrun
    by (vm_compute; reflexivity).
  assert (keeps_flags (http_get (effects team_context) CONTRIBUTORS_URL)) as Hkeeps
    by (intros w; split; reflexivity).
  split; [reflexivity|]. split; [exact Hrun|]. split; [exact Hkeeps|].
  exact (proj2 (second_invocation_only_continues example_imports (Some echo) team_context
                  (VNum 1) (fresh_world true None) _ _
                  example_imports (Some echo) quiet_context (VNum 2)
                  eq_refl Hrun Hkeeps)).
Defined.
